(** * Motion detector: recording coordination of detector.py

    A shallow embedding of [detector.py].  The program runs one
    [CameraProcessor.process] thread per camera; every frame whose motion area
    exceeds the camera's threshold starts a [send_nvr_record] thread, and a
    successful start request starts a [monitor_no_motion_stop] thread.  All of
    them share the module globals [running], [recording_state] and
    [last_motion_time], and the source takes no lock anywhere.

    The threads are embedded as program-counter machines named after the source
    lines they are about to execute; one step of a thread is one access to the
    shared globals or one blocking call.  A blocking [requests.put] is a
    single step, in which the request is sent and its answer or its exception
    received: a thread that waits for the recorder is a thread that has not
    taken that step yet.  A schedule picks, step after step, a thread and what
    the outside world answers to it (the clock, the recorder, the capture
    device, the keyboard).  Next to the machines stand the functions
    [send_nvr_record], [stop_record] and [process_frame], written as the source
    writes them and proved equal to their machines run alone.

    Timestamps, areas and thresholds are Python floats in the source; they are
    idealised here as rationals.  The arithmetic of OpenCV is not modelled: the
    capture hands over the blurred greyscale frame and the summed contour
    area. *)

From Stdlib Require Import ZArith QArith Lqa Lia.
From stdpp Require Import base option list gmap strings pretty.

Local Open Scope Z_scope.
Local Open Scope Q_scope.

(** ** Configuration and module globals *)

(** One entry of [config['cameras']]. *)
Record Camera := mkCamera {
  name : string;
  rtsp : string;
  nvr_channel : Z;
  threshold : Q;
  no_motion_timeout : Q
}.

(** [track_id = cam['nvr_channel'] * 100 + 1] (lines 59 and 82). *)
Definition track_id (cam : Camera) : Z := (nvr_channel cam * 100 + 1)%Z.

(** The module globals of lines 30-36.  [recording_state] is a
    [defaultdict(bool)] and [last_motion_time] a [defaultdict(float)]. *)
Record Globals := mkGlobals {
  COOLDOWN : Q;
  running : bool;
  recording_state : gmap string bool;
  last_motion_time : gmap string Q
}.

(** [d[k]] on a [defaultdict]: a missing key is inserted with the default
    value, which is returned. *)
Definition dd_get {A : Type} (dflt : A) (d : gmap string A) (k : string)
  : A * gmap string A :=
  match d !! k with
  | Some v => (v, d)
  | None => (dflt, <[k := dflt]> d)
  end.

(** The value a read of [recording_state[k]] returns. *)
Definition is_recording (g : Globals) (k : string) : bool :=
  fst (dd_get false (recording_state g) k).

(** The value a read of [last_motion_time[k]] returns. *)
Definition last_motion (g : Globals) (k : string) : Q :=
  fst (dd_get 0 (last_motion_time g) k).

Definition read_recording (g : Globals) (k : string) : bool * Globals :=
  let '(v, d) := dd_get false (recording_state g) k in
  (v, mkGlobals (COOLDOWN g) (running g) d (last_motion_time g)).

Definition read_last_motion (g : Globals) (k : string) : Q * Globals :=
  let '(v, d) := dd_get 0 (last_motion_time g) k in
  (v, mkGlobals (COOLDOWN g) (running g) (recording_state g) d).

Definition set_recording (g : Globals) (k : string) (v : bool) : Globals :=
  mkGlobals (COOLDOWN g) (running g) (<[k := v]> (recording_state g))
            (last_motion_time g).

Definition set_running (g : Globals) (v : bool) : Globals :=
  mkGlobals (COOLDOWN g) v (recording_state g) (last_motion_time g).

Definition set_last_motion (g : Globals) (k : string) (v : Q) : Globals :=
  mkGlobals (COOLDOWN g) (running g) (recording_state g)
            (<[k := v]> (last_motion_time g)).

(** Float comparison [x < y], idealised on rationals. *)
Definition Qltb (x y : Q) : bool := negb (Qle_bool y x).

(** ** The outside world *)

(** What [requests.put] does: it returns a response carrying a status code, or
    it raises. *)
Inductive response :=
| Status (code : Z)
| Raised.

Inductive request := StartTrack | StopTrack.

(** One request sent to the recorder, with its answer.  [flag_then] is a ghost
    field: the value of [recording_state[cam_name]] when the request is
    sent. *)
Record call := mkCall {
  verb : request;
  cam_of : string;
  track : Z;
  reply : response;
  flag_then : bool
}.

(** A greyscaled and blurred frame (lines 123-124). *)
Definition Gray := list Z.

(** What the outside world answers to one step of a thread. *)
Record Env := mkEnv {
  time_time : Q;            (* [time.time()] *)
  put : response;           (* [requests.put(...)] *)
  isOpened : bool;          (* [self.cap.isOpened()] at line 107 *)
  init_cap : bool;          (* the result of [self.init_cap()] *)
  cap_read : option Gray;   (* [self.cap.read()], greyscaled and blurred *)
  contour_area : Q;         (* the summed [cv2.contourArea] of line 136 *)
  interrupt : bool          (* a [KeyboardInterrupt] reaches the main thread *)
}.

(** ** send_nvr_record (lines 49-72) *)

Inductive send_pc :=
| S51                (* about to read the clock *)
| S53 (now : Q)      (* about to test [recording_state[cam_name]] *)
| S56 (now : Q)      (* about to test the cooldown *)
| S63 (now : Q)      (* about to send the start request *)
| S65 (now : Q)      (* request answered; about to set the flag *)
| S66 (now : Q)      (* about to store [now] in [last_motion_time] *)
| S71                (* about to start the watchdog thread *)
| SDone.             (* returned *)

(** ** monitor_no_motion_stop (lines 75-85) and stop_record (lines 39-47) *)

Inductive mon_pc :=
| M79                (* loop test: about to read [running] *)
| M79r               (* loop test: about to read [recording_state[cam_name]] *)
| M80                (* about to read the clock *)
| M81 (now : Q)      (* about to compare with the timeout *)
| M42                (* in [stop_record]: about to send the stop request *)
| M44                (* request answered; about to clear the flag *)
| M85                (* [time.sleep(1)] *)
| MDone.             (* loop left *)

(** ** CameraProcessor (lines 88-152) *)

Record CameraProcessor := mkProcessor {
  cam : Camera;
  cap : bool;                   (* [self.cap is not None] *)
  ref_frame : option Gray;
  frame_count : Z;
  reconnects : Z
}.

Inductive proc_pc :=
| P106                            (* [while running] *)
| P107                            (* capture test and reconnect *)
| P118                            (* read a frame and score it *)
| P138 (gray : Gray) (area : Q)   (* motion: about to read the flag *)
| P140 (gray : Gray) (area : Q)   (* about to start [send_nvr_record] *)
| P141 (gray : Gray) (area : Q)   (* about to store the clock *)
| P143 (gray : Gray) (area : Q)   (* reference refresh *)
| P149                            (* [time.sleep(0.033)] *)
| PDone.

(** ** The main thread (lines 166-171) *)

Inductive main_pc :=
| J168               (* joining the frame loops *)
| JDone.             (* interrupted: [running] cleared *)

Inductive thread :=
| Main (pc : main_pc)
| Send (c : Camera) (pc : send_pc)
| Monitor (c : Camera) (pc : mon_pc)
| Process (p : CameraProcessor) (pc : proc_pc).

(** The result of one step of a thread: the globals, the thread afterwards,
    the requests it sent and the threads it started. *)
Record outcome := mkOutcome {
  o_globals : Globals;
  o_thread : thread;
  o_calls : list call;
  o_spawned : list thread
}.

Definition send_nvr_record_step (e : Env) (g : Globals) (c : Camera)
  (pc : send_pc) : outcome :=
  match pc with
  | S51 => mkOutcome g (Send c (S53 (time_time e))) [] []
  | S53 now =>
      let '(r, g') := read_recording g (name c) in
      mkOutcome g' (Send c (if r then SDone else S56 now)) [] []
  | S56 now =>
      let '(l, g') := read_last_motion g (name c) in
      mkOutcome g' (Send c (if Qltb (now - l) (COOLDOWN g) then SDone else S63 now))
                [] []
  | S63 now =>
      mkOutcome g
        (Send c (match put e with Status _ => S65 now | Raised => SDone end))
        [mkCall StartTrack (name c) (track_id c) (put e) (is_recording g (name c))]
        []
  | S65 now => mkOutcome (set_recording g (name c) true) (Send c (S66 now)) [] []
  | S66 now => mkOutcome (set_last_motion g (name c) now) (Send c S71) [] []
  | S71 => mkOutcome g (Send c SDone) [] [Monitor c M79]
  | SDone => mkOutcome g (Send c SDone) [] []
  end.

Definition monitor_no_motion_stop_step (e : Env) (g : Globals) (c : Camera)
  (pc : mon_pc) : outcome :=
  match pc with
  | M79 => mkOutcome g (Monitor c (if running g then M79r else MDone)) [] []
  | M79r =>
      let '(r, g') := read_recording g (name c) in
      mkOutcome g' (Monitor c (if r then M80 else MDone)) [] []
  | M80 => mkOutcome g (Monitor c (M81 (time_time e))) [] []
  | M81 now =>
      let '(l, g') := read_last_motion g (name c) in
      mkOutcome g'
        (Monitor c (if Qltb (no_motion_timeout c) (now - l) then M42 else M85))
        [] []
  | M42 =>
      mkOutcome g
        (Monitor c (match put e with Status _ => M44 | Raised => MDone end))
        [mkCall StopTrack (name c) (track_id c) (put e) (is_recording g (name c))]
        []
  | M44 => mkOutcome (set_recording g (name c) false) (Monitor c MDone) [] []
  | M85 => mkOutcome g (Monitor c M79) [] []
  | MDone => mkOutcome g (Monitor c MDone) [] []
  end.

(** [motion_area > self.cam['threshold']] (line 137). *)
Definition is_motion (c : Camera) (area : Q) : bool := Qltb (threshold c) area.

(** [low_motion = motion_area < (self.cam['threshold'] * 0.1)] (line 143). *)
Definition low_motion (c : Camera) (area : Q) : bool :=
  Qltb area (threshold c * (1 # 10)).

(** The test of line 144. *)
Definition refresh_due (p : CameraProcessor) (area : Q) : bool :=
  (frame_count p mod 300 =? 0)%Z || low_motion (cam p) area.

(** Lines 143-145. *)
Definition refresh (p : CameraProcessor) (gray : Gray) (area : Q)
  : CameraProcessor :=
  if refresh_due p area
  then mkProcessor (cam p) (cap p) (Some gray) (frame_count p) (reconnects p)
  else p.

Definition process_step (e : Env) (g : Globals) (p : CameraProcessor)
  (pc : proc_pc) : outcome :=
  match pc with
  | P106 => mkOutcome g (Process p (if running g then P107 else PDone)) [] []
  | P107 =>
      if negb (cap p) || negb (isOpened e) then
        (* [init_cap] stores a new capture in [self.cap] *)
        if init_cap e then
          mkOutcome g
            (Process (mkProcessor (cam p) true (ref_frame p) (frame_count p)
                                  (reconnects p + 1)) P118) [] []
        else
          mkOutcome g
            (Process (mkProcessor (cam p) true (ref_frame p) (frame_count p)
                                  (reconnects p)) P106) [] []
      else mkOutcome g (Process p P118) [] []
  | P118 =>
      let p1 := mkProcessor (cam p) (cap p) (ref_frame p) (frame_count p + 1)
                            (reconnects p) in
      match cap_read e with
      | None => mkOutcome g (Process p1 P106) [] []
      | Some gray =>
          match ref_frame p with
          | None =>
              mkOutcome g
                (Process (mkProcessor (cam p) (cap p) (Some gray)
                                      (frame_count p + 1) (reconnects p)) P106)
                [] []
          | Some _ =>
              let area := contour_area e in
              mkOutcome g
                (Process p1 (if is_motion (cam p) area then P138 gray area
                             else P143 gray area)) [] []
          end
      end
  | P138 gray area =>
      mkOutcome (snd (read_recording g (name (cam p)))) (Process p (P140 gray area))
                [] []
  | P140 gray area => mkOutcome g (Process p (P141 gray area)) [] [Send (cam p) S51]
  | P141 gray area =>
      mkOutcome (set_last_motion g (name (cam p)) (time_time e))
                (Process p (P143 gray area)) [] []
  | P143 gray area => mkOutcome g (Process (refresh p gray area) P149) [] []
  | P149 => mkOutcome g (Process p P106) [] []
  | PDone => mkOutcome g (Process p PDone) [] []
  end.

Definition main_step (e : Env) (g : Globals) (pc : main_pc) : outcome :=
  match pc with
  | J168 =>
      if interrupt e then mkOutcome (set_running g false) (Main JDone) [] []
      else mkOutcome g (Main J168) [] []
  | JDone => mkOutcome g (Main JDone) [] []
  end.

Definition thread_step (e : Env) (g : Globals) (t : thread) : outcome :=
  match t with
  | Main pc => main_step e g pc
  | Send c pc => send_nvr_record_step e g c pc
  | Monitor c pc => monitor_no_motion_stop_step e g c pc
  | Process p pc => process_step e g p pc
  end.

(** ** The whole program *)

Record system := mkSystem {
  globals : Globals;
  threads : list thread;
  calls : list call          (* the requests sent so far, oldest first *)
}.

(** Thread [i] takes one step; a choice that names no thread changes nothing. *)
Definition step (s : system) (ch : nat * Env) : system :=
  match threads s !! fst ch with
  | None => s
  | Some t =>
      let o := thread_step (snd ch) (globals s) t in
      mkSystem (o_globals o)
               (<[fst ch := o_thread o]> (threads s) ++ o_spawned o)
               (calls s ++ o_calls o)
  end.

Definition run (sched : list (nat * Env)) (s : system) : system :=
  foldl step s sched.

(** [processors = {cam['name']: CameraProcessor(cam) for cam in CAMERAS}]
    (line 157): a dict keeps one entry per key, at the place of the key's first
    insertion and with the value of its last. *)
Definition new_processor (c : Camera) : CameraProcessor :=
  mkProcessor c false None 0 0.

Fixpoint dict_set (k : string) (v : CameraProcessor)
  (d : list (string * CameraProcessor)) : list (string * CameraProcessor) :=
  match d with
  | [] => [(k, v)]
  | (k', v') :: d' =>
      if decide (k = k') then (k, v) :: d' else (k', v') :: dict_set k v d'
  end.

Definition processors (cams : list Camera) : list (string * CameraProcessor) :=
  foldl (fun d c => dict_set (name c) (new_processor c) d) [] cams.

(** The program once [__main__] has started every frame loop and waits in
    [join] (lines 155-168): thread 0 is the main thread, then one frame loop
    per processor. *)
Definition boot (cooldown : Q) (cams : list Camera) : system :=
  mkSystem (mkGlobals cooldown true ∅ ∅)
           (Main J168 :: map (fun kv => Process (snd kv) P106) (processors cams))
           [].

(** ** Calls that run without interruption *)

(** [n] consecutive steps of one thread, nothing else running in between. *)
Fixpoint run_alone (n : nat) (e : Env) (g : Globals) (t : thread) : outcome :=
  match n with
  | O => mkOutcome g t [] []
  | S n' =>
      let o := thread_step e g t in
      let o' := run_alone n' e (o_globals o) (o_thread o) in
      mkOutcome (o_globals o') (o_thread o') (o_calls o ++ o_calls o')
                (o_spawned o ++ o_spawned o')
  end.

(** [send_nvr_record(cam)] (lines 49-72) as the function the source writes; the
    watchdog thread of line 71 is returned in [o_spawned]. *)
Definition send_nvr_record (e : Env) (g : Globals) (c : Camera) : outcome :=
  let cam_name := name c in
  let now := time_time e in
  let '(r, g1) := read_recording g cam_name in
  if r then mkOutcome g1 (Send c SDone) [] []
  else
    let '(l, g2) := read_last_motion g1 cam_name in
    if Qltb (now - l) (COOLDOWN g1) then mkOutcome g2 (Send c SDone) [] []
    else
      let request :=
        mkCall StartTrack cam_name (track_id c) (put e) (is_recording g2 cam_name) in
      match put e with
      | Status _ =>
          mkOutcome (set_last_motion (set_recording g2 cam_name true) cam_name now)
                    (Send c SDone) [request] [Monitor c M79]
      | Raised => mkOutcome g2 (Send c SDone) [request] []
      end.

(** [stop_record(track_id, cam_name)] (lines 39-47) as the function the source
    writes. *)
Definition stop_record (e : Env) (g : Globals) (c : Camera) : outcome :=
  let request :=
    mkCall StopTrack (name c) (track_id c) (put e) (is_recording g (name c)) in
  match put e with
  | Status _ => mkOutcome (set_recording g (name c) false) (Monitor c MDone) [request] []
  | Raised => mkOutcome g (Monitor c MDone) [request] []
  end.

(** One pass of the loop body of [CameraProcessor.process] from the read of
    line 118 to the [continue] or the sleep that ends it; the thread of line
    140 is returned in [o_spawned]. *)
Definition process_frame (e : Env) (g : Globals) (p : CameraProcessor) : outcome :=
  let p1 := mkProcessor (cam p) (cap p) (ref_frame p) (frame_count p + 1)
                        (reconnects p) in
  match cap_read e with
  | None => mkOutcome g (Process p1 P106) [] []
  | Some gray =>
      match ref_frame p with
      | None =>
          mkOutcome g
            (Process (mkProcessor (cam p) (cap p) (Some gray) (frame_count p + 1)
                                  (reconnects p)) P106) [] []
      | Some _ =>
          let motion_area := contour_area e in
          if is_motion (cam p) motion_area then
            mkOutcome
              (set_last_motion (snd (read_recording g (name (cam p))))
                               (name (cam p)) (time_time e))
              (Process (refresh p1 gray motion_area) P149) [] [Send (cam p) S51]
          else mkOutcome g (Process (refresh p1 gray motion_area) P149) [] []
      end
  end.

(** The number of steps the thread machine takes for that pass. *)
Definition frame_steps (e : Env) (p : CameraProcessor) : nat :=
  match cap_read e, ref_frame p with
  | Some _, Some _ => if is_motion (cam p) (contour_area e) then 5 else 2
  | _, _ => 1
  end.

(** A start request is sent for camera [k]. *)
Definition is_start (k : string) (x : call) : bool :=
  match verb x with
  | StartTrack => bool_decide (cam_of x = k)
  | StopTrack => false
  end.

(** A request of either kind is sent for camera [k]. *)
Definition is_for (k : string) (x : call) : bool := bool_decide (cam_of x = k).

(** A start request sent while the flag of its camera is set. *)
Definition start_while_recording (x : call) : bool :=
  match verb x with
  | StartTrack => flag_then x
  | StopTrack => false
  end.

Fixpoint count {A : Type} (f : A -> bool) (l : list A) : nat :=
  match l with
  | [] => O
  | x :: l' => ((if f x then 1 else 0) + count f l')%nat
  end.

(** A [send_nvr_record] of camera [k] that has passed the test of line 53 and
    has not returned yet. *)
Definition in_flight (k : string) (t : thread) : bool :=
  match t with
  | Send c (S56 _ | S63 _ | S65 _ | S66 _ | S71) => bool_decide (name c = k)
  | _ => false
  end.

(** A watchdog of camera [k] that has not left its loop. *)
Definition watching (k : string) (t : thread) : bool :=
  match t with
  | Monitor c MDone => false
  | Monitor c _ => bool_decide (name c = k)
  | _ => false
  end.

Definition watchdogs (k : string) (s : system) : nat :=
  count (watching k) (threads s).

Definition sends_in_flight (k : string) (s : system) : nat :=
  count (in_flight k) (threads s).

(** Two states of the globals that every read tells apart in no way: a read of
    a [defaultdict] may add a key, and nothing else. *)
Definition same_view (g g' : Globals) : Prop :=
  COOLDOWN g' = COOLDOWN g /\ running g' = running g /\
  (forall k, is_recording g' k = is_recording g k) /\
  (forall k, last_motion g' k = last_motion g k).

(** ** Invariants

    [stuck k s]: camera [k] is flagged as recording while no watchdog of it is
    left and no [send_nvr_record] of it is past the test of line 53. *)
Definition stuck (k : string) (s : system) : Prop :=
  is_recording (globals s) k = true /\
  sends_in_flight k s = O /\
  watchdogs k s = O.

(** A [send_nvr_record] of camera [k] between the test of line 53 and the
    assignment of line 65. *)
Definition early (k : string) (t : thread) : bool :=
  match t with
  | Send c (S56 _ | S63 _ | S65 _) => bool_decide (name c = k)
  | _ => false
  end.

(** A [send_nvr_record] of camera [k] that has set the flag and has not
    started its watchdog yet. *)
Definition late (k : string) (t : thread) : bool :=
  match t with
  | Send c (S66 _ | S71) => bool_decide (name c = k)
  | _ => false
  end.

(** A start request for camera [k] sent while its flag is set. *)
Definition bad_start (k : string) (x : call) : bool :=
  is_for k x && start_while_recording x.

(** In every state the execution [sched] visits from [s], at most one
    [send_nvr_record] of camera [k] is past the test of line 53: the calls for
    that camera do not overlap. *)
Fixpoint overlap_free (k : string) (sched : list (nat * Env)) (s : system) : bool :=
  (sends_in_flight k s <=? 1)%nat &&
  match sched with
  | [] => true
  | ch :: rest => overlap_free k rest (step s ch)
  end.

(** The invariant of executions without overlapping calls: a watchdog and a
    call past line 53 exclude each other; while the flag is false there is no
    watchdog and no call beyond line 65; while it is true there is no call
    between lines 53 and 65; no start request was sent with the flag set. *)
Definition orderly (k : string) (s : system) : Prop :=
  (watchdogs k s + sends_in_flight k s <= 1)%nat /\
  (is_recording (globals s) k = false ->
   watchdogs k s = O /\ count (late k) (threads s) = O) /\
  (is_recording (globals s) k = true -> count (early k) (threads s) = O) /\
  count (bad_start k) (calls s) = O.



(** ** A concrete installation

    One camera on recorder channel 3, motion threshold 500, no-motion timeout
    10 seconds.  Thread 0 is the main thread, thread 1 the camera's frame
    loop; the threads started later are numbered from 2 in the order of their
    start. *)

Definition cam1 : Camera :=
  mkCamera "cam1" "rtsp://10.0.0.7/stream1" 3 500 10.

(** The outside world at clock [t]: the recorder answers 200, the capture is
    open, nobody interrupts. *)
Definition world (t : Q) : Env := mkEnv t (Status 200) true true None 0 false.

(** As [world], and the capture delivers a frame scoring [area]. *)
Definition frame (t : Q) (area : Q) : Env :=
  mkEnv t (Status 200) true true (Some [0%Z]) area false.

(** As [world], but the request to the recorder raises. *)
Definition put_raises (t : Q) : Env := mkEnv t Raised true true None 0 false.

(** The camera's processor once it is connected and has stored its reference
    frame. *)
Definition cam1_processor : CameraProcessor :=
  mkProcessor cam1 true (Some [0%Z]) 1 1.

(** Thread [i] takes [n] steps in a row. *)
Definition thread_runs (i n : nat) (e : Env) : list (nat * Env) :=
  replicate n (i, e).

(** The frame loop connects and stores its reference frame
    (lines 106, 107, 118). *)
Definition connect : list (nat * Env) :=
  thread_runs 1 2 (world 999) ++ [(1%nat, frame 999 0)].

(** The frame loop reads a frame scoring 800 at clock [t] and starts a
    [send_nvr_record] thread (lines 106, 107, 118, 138, 140). *)
Definition motion_frame (t : Q) : list (nat * Env) :=
  thread_runs 1 2 (world t) ++ [(1%nat, frame t 800)] ++ thread_runs 1 2 (world t).

(** The frame loop finishes the pass (lines 141, 143, 149). *)
Definition rest_of_frame (t : Q) : list (nat * Env) := thread_runs 1 3 (world t).

(** Motion at clock 1000; the start request of thread 2 raises; motion again
    one second later is handled by thread 3. *)
Definition failed_start_then_motion : list (nat * Env) :=
  connect ++ motion_frame 1000 ++ thread_runs 2 4 (put_raises 1000)
  ++ rest_of_frame 1000
  ++ motion_frame 1001 ++ thread_runs 3 7 (world 1001) ++ rest_of_frame 1001.

(** Motion at clock 1000 starts a recording (thread 2) and its watchdog
    (thread 3); eleven seconds later the watchdog finds the timeout exceeded
    and is about to send its stop request. *)
Definition single_start : list (nat * Env) :=
  connect ++ motion_frame 1000 ++ thread_runs 2 7 (world 1000)
  ++ rest_of_frame 1000 ++ thread_runs 3 4 (world 1011).

Definition before_failed_stop : system := run single_start (boot 30 [cam1]).

(** The stop request of that watchdog raises. *)
Definition after_failed_stop : system :=
  step before_failed_stop (3%nat, put_raises 1011).

(** Two motion frames two seconds apart with a cooldown of one second.  The
    start request of thread 2 is answered after two seconds, just when thread
    3 has passed the tests of lines 53 and 56 and before it sends its own
    request.  Threads 4 and 5 are the watchdogs. *)
Definition overlapping_starts : list (nat * Env) :=
  connect
  ++ motion_frame 1000 ++ thread_runs 2 3 (world 1000) ++ rest_of_frame 1000
  ++ motion_frame 1002 ++ thread_runs 3 3 (world 1002)
  ++ thread_runs 2 4 (world 1002) ++ thread_runs 3 4 (world 1002)
  ++ rest_of_frame 1002.

(** After [overlapping_starts]: the stop request of watchdog 4 raises. *)
Definition first_watchdog_fails : list (nat * Env) :=
  thread_runs 4 4 (world 1013) ++ [(4%nat, put_raises 1013)].

(** After that: watchdog 5 times out as well and its request is answered. *)
Definition second_watchdog_stops : list (nat * Env) :=
  thread_runs 5 6 (world 1014).

(** The state in which the stop request of watchdog 4 has just raised. *)
Definition after_first_failure : system :=
  run (overlapping_starts ++ first_watchdog_fails) (boot 1 [cam1]).

(** Cooldown 2 seconds.  Motion at clock 1000: the start request of thread 2
    stays pending.  Motion at clock 1001.5: thread 3 is suppressed by the
    cooldown, and line 141 stores 1001.5.  Motion at clock 1003: the frame
    loop has just started thread 4 (line 140). *)
Definition stale_clock_delivery : list (nat * Env) :=
  connect
  ++ motion_frame 1000 ++ thread_runs 2 3 (world 1000) ++ rest_of_frame 1000
  ++ motion_frame 1001.5 ++ thread_runs 3 3 (world 1001.5)
  ++ rest_of_frame 1001.5
  ++ motion_frame 1003.

Definition at_delivery : system := run stale_clock_delivery (boot 2 [cam1]).

(** After [stale_clock_delivery]: line 141 stores 1003; thread 4 reads the
    clock and passes the test of line 53; the request of thread 2 is answered
    and its line 66 stores the clock value 1000 it read at line 51; thread 4
    then takes the test of line 56 and sends its request. *)
Definition stale_clock_race : list (nat * Env) :=
  [(1%nat, world 1003)] ++ thread_runs 4 2 (world 1003)
  ++ thread_runs 2 3 (world 1003) ++ thread_runs 4 2 (world 1003).
(** ** The rest of the program

    The recorder's URLs (lines 40 and 60). *)

Definition start_url (NVR_IP : string) (track_id : Z) : string :=
  "http://" +:+ NVR_IP
  +:+ "/ISAPI/ContentMgmt/record/control/manual/start/tracks/" +:+ pretty track_id.

Definition stop_url (NVR_IP : string) (track_id : Z) : string :=
  "http://" +:+ NVR_IP
  +:+ "/ISAPI/ContentMgmt/record/control/manual/stop/tracks/" +:+ pretty track_id.

(** The URL a request of the log was sent to. *)
Definition url_of (NVR_IP : string) (x : call) : string :=
  match verb x with
  | StartTrack => start_url NVR_IP (track x)
  | StopTrack => stop_url NVR_IP (track x)
  end.

(** [processors[k]] on the dict of line 157. *)
Fixpoint dict_get (k : string) (d : list (string * CameraProcessor))
  : option CameraProcessor :=
  match d with
  | [] => None
  | (k', v) :: d' => if decide (k = k') then Some v else dict_get k d'
  end.

(** The last camera of the configuration that is named [k]. *)
Definition last_named (k : string) (cams : list Camera) : option Camera :=
  foldl (fun found c => if decide (name c = k) then Some c else found) None cams.

(** The camera a thread works for. *)
Definition thread_cam (t : thread) : option Camera :=
  match t with
  | Main _ => None
  | Send c _ | Monitor c _ => Some c
  | Process p _ => Some (cam p)
  end.

(** Thread [t] works for a camera named [k]. *)
Definition of_camera (k : string) (t : thread) : bool :=
  match thread_cam t with
  | Some c => bool_decide (name c = k)
  | None => false
  end.

(** A thread that has returned. *)
Definition finished (t : thread) : bool :=
  match t with
  | Main JDone | Send _ SDone | Monitor _ MDone | Process _ PDone => true
  | _ => false
  end.

(** [t'] is a later state of the thread [t]: the same kind of thread for the
    same camera, unchanged if [t] has returned; for a frame loop the counters
    have not decreased and neither the capture nor the reference frame has
    been lost. *)
Definition grows (t t' : thread) : Prop :=
  (finished t = true -> t' = t) /\
  match t, t' with
  | Main _, Main _ => True
  | Send c _, Send c' _ => c' = c
  | Monitor c _, Monitor c' _ => c' = c
  | Process p _, Process p' _ =>
      cam p' = cam p /\
      (frame_count p <= frame_count p')%Z /\
      (reconnects p <= reconnects p')%Z /\
      (cap p = true -> cap p' = true) /\
      (is_Some (ref_frame p) -> is_Some (ref_frame p'))
  | _, _ => False
  end.

(** The request [x] is one of camera [c]. *)
Definition request_of (c : Camera) (x : call) : Prop :=
  cam_of x = name c /\ track x = (nvr_channel c * 100 + 1)%Z.

(** Every thread works for a camera of the configuration and every request
    sent is one of such a camera. *)
Definition configured (cams : list Camera) (s : system) : Prop :=
  Forall (fun t => forall c, thread_cam t = Some c -> c ∈ cams) (threads s) /\
  Forall (fun x => exists c, c ∈ cams /\ request_of c x) (calls s).

(** An answered start request for camera [k]. *)
Definition answered_start (k : string) (x : call) : bool :=
  is_start k x && match reply x with Status _ => true | Raised => false end.

(** A stop request for camera [k], answered or not. *)
Definition stop_for (k : string) (x : call) : bool :=
  is_for k x && match verb x with StopTrack => true | StartTrack => false end.

(** A watchdog thread of camera [k], in its loop or not. *)
Definition watchdog_of (k : string) (t : thread) : bool :=
  match t with
  | Monitor c _ => bool_decide (name c = k)
  | _ => false
  end.

(** A [send_nvr_record] of camera [k] whose request was answered and which has
    not started its watchdog yet (lines 64-71). *)
Definition answered_call (k : string) (t : thread) : bool :=
  match t with
  | Send c (S65 _ | S66 _ | S71) => bool_decide (name c = k)
  | _ => false
  end.

(** A watchdog of camera [k] that is past the request of line 42 or has left
    its loop. *)
Definition past_stop (k : string) (t : thread) : bool :=
  match t with
  | Monitor c (M44 | MDone) => bool_decide (name c = k)
  | _ => false
  end.

(** The bookkeeping of requests and watchdogs of camera [k]. *)
Definition tally (k : string) (s : system) : Prop :=
  (count (watchdog_of k) (threads s) + count (answered_call k) (threads s)
   = count (answered_start k) (calls s))%nat /\
  (count (stop_for k) (calls s) <= count (past_stop k) (threads s))%nat /\
  (is_recording (globals s) k = true ->
   (1 <= count (answered_start k) (calls s))%nat).

(** As [world], and a [KeyboardInterrupt] reaches the main thread. *)
Definition ctrl_c (t : Q) : Env := mkEnv t (Status 200) true true None 0 true.

(** A state of the globals with a cooldown of 5 seconds in which [cam1] has
    been recording since its last motion at clock 1000. *)
Definition recording_since_1000 : Globals :=
  set_last_motion (set_recording (globals (boot 5 [cam1])) "cam1" true) "cam1" 1000.


(** An answered stop request for camera [k]. *)
Definition answered_stop (k : string) (x : call) : bool :=
  stop_for k x && match reply x with Status _ => true | Raised => false end.

(** A [send_nvr_record] of camera [k] about to set the flag (line 65). *)
Definition setting_flag (k : string) (t : thread) : bool :=
  match t with
  | Send c (S65 _) => bool_decide (name c = k)
  | _ => false
  end.

(** A watchdog of camera [k] about to clear the flag (line 44). *)
Definition clearing_flag (k : string) (t : thread) : bool :=
  match t with
  | Monitor c M44 => bool_decide (name c = k)
  | _ => false
  end.

(** The flag of camera [k] is down only if no start request was answered, a
    stop request was answered since, or the thread of an answered start
    request has not reached line 65 yet; and a watchdog stands at line 44
    only after an answered stop request. *)
Definition cleared_by_stop (k : string) (s : system) : Prop :=
  ((1 <= count (clearing_flag k) (threads s))%nat ->
   (1 <= count (answered_stop k) (calls s))%nat) /\
  (is_recording (globals s) k = false ->
   count (answered_start k) (calls s) = O \/
   (1 <= count (answered_stop k) (calls s))%nat \/
   (1 <= count (setting_flag k) (threads s))%nat).

(** [single_start], and the stop request of the watchdog is answered
    (lines 42 and 44). *)
Definition full_cycle : list (nat * Env) :=
  single_start ++ thread_runs 3 2 (world 1011).
(** ** Reading and writing the globals *)

Lemma Qltb_lt (x y : Q) : Qltb x y = true <-> x < y.
Proof.
  unfold Qltb. rewrite negb_true_iff. split.
  - intros H. apply Qnot_le_lt. intros Hle.
    apply Qle_bool_iff in Hle. congruence.
  - intros H. destruct (Qle_bool y x) eqn:E; [|reflexivity].
    apply Qle_bool_iff in E. exfalso. apply (Qlt_not_le _ _ H E).
Qed.

Lemma Qltb_ge (x y : Q) : Qltb x y = false <-> y <= x.
Proof.
  unfold Qltb. rewrite negb_false_iff. apply Qle_bool_iff.
Qed.

(** A read of a [defaultdict] does not change what later reads return. *)
Lemma dd_get_fst {A : Type} (dflt : A) (d : gmap string A) (k k' : string) :
  fst (dd_get dflt (snd (dd_get dflt d k)) k') = fst (dd_get dflt d k').
Proof.
  unfold dd_get. destruct (d !! k) eqn:Hk; simpl; [reflexivity|].
  destruct (decide (k = k')) as [->|Hne].
  - rewrite lookup_insert_eq, Hk. reflexivity.
  - rewrite lookup_insert_ne by exact Hne. destruct (d !! k'); reflexivity.
Qed.

Lemma dd_get_insert {A : Type} (dflt : A) (d : gmap string A) (k k' : string) (v : A) :
  fst (dd_get dflt (<[k := v]> d) k') =
  if decide (k = k') then v else fst (dd_get dflt d k').
Proof.
  unfold dd_get. destruct (decide (k = k')) as [->|Hne].
  - rewrite lookup_insert_eq. reflexivity.
  - rewrite lookup_insert_ne by exact Hne. destruct (d !! k'); reflexivity.
Qed.

Lemma read_recording_fst g k : fst (read_recording g k) = is_recording g k.
Proof.
  unfold read_recording, is_recording.
  destruct (dd_get false (recording_state g) k). reflexivity.
Qed.

Lemma read_last_motion_fst g k : fst (read_last_motion g k) = last_motion g k.
Proof.
  unfold read_last_motion, last_motion.
  destruct (dd_get 0 (last_motion_time g) k). reflexivity.
Qed.

Lemma is_recording_read_recording g k k' :
  is_recording (snd (read_recording g k)) k' = is_recording g k'.
Proof.
  unfold read_recording, is_recording.
  pose proof (dd_get_fst false (recording_state g) k k') as H.
  destruct (dd_get false (recording_state g) k). exact H.
Qed.

Lemma is_recording_read_last_motion g k k' :
  is_recording (snd (read_last_motion g k)) k' = is_recording g k'.
Proof.
  unfold read_last_motion, is_recording.
  destruct (dd_get 0 (last_motion_time g) k). reflexivity.
Qed.

Lemma last_motion_read_recording g k k' :
  last_motion (snd (read_recording g k)) k' = last_motion g k'.
Proof.
  unfold read_recording, last_motion.
  destruct (dd_get false (recording_state g) k). reflexivity.
Qed.

Lemma last_motion_read_last_motion g k k' :
  last_motion (snd (read_last_motion g k)) k' = last_motion g k'.
Proof.
  unfold read_last_motion, last_motion.
  pose proof (dd_get_fst 0 (last_motion_time g) k k') as H.
  destruct (dd_get 0 (last_motion_time g) k). exact H.
Qed.

Lemma is_recording_set_recording g k v k' :
  is_recording (set_recording g k v) k' =
  if decide (k = k') then v else is_recording g k'.
Proof. apply dd_get_insert. Qed.

Lemma is_recording_set_last_motion g k v k' :
  is_recording (set_last_motion g k v) k' = is_recording g k'.
Proof. reflexivity. Qed.

Lemma last_motion_set_last_motion g k v k' :
  last_motion (set_last_motion g k v) k' =
  if decide (k = k') then v else last_motion g k'.
Proof. apply dd_get_insert. Qed.

Lemma last_motion_set_recording g k v k' :
  last_motion (set_recording g k v) k' = last_motion g k'.
Proof. reflexivity. Qed.

Lemma COOLDOWN_read_recording g k : COOLDOWN (snd (read_recording g k)) = COOLDOWN g.
Proof.
  unfold read_recording. destruct (dd_get false (recording_state g) k). reflexivity.
Qed.

Lemma COOLDOWN_read_last_motion g k : COOLDOWN (snd (read_last_motion g k)) = COOLDOWN g.
Proof.
  unfold read_last_motion. destruct (dd_get 0 (last_motion_time g) k). reflexivity.
Qed.

Lemma same_view_refl g : same_view g g.
Proof. repeat split. Qed.

Lemma same_view_trans g1 g2 g3 :
  same_view g1 g2 -> same_view g2 g3 -> same_view g1 g3.
Proof.
  intros (A1 & A2 & A3 & A4) (B1 & B2 & B3 & B4).
  repeat split; intros; congruence.
Qed.

Lemma read_recording_view g k : same_view g (snd (read_recording g k)).
Proof.
  repeat split.
  - apply COOLDOWN_read_recording.
  - unfold read_recording. destruct (dd_get false (recording_state g) k). reflexivity.
  - intros. apply is_recording_read_recording.
  - intros. apply last_motion_read_recording.
Qed.

Lemma read_last_motion_view g k : same_view g (snd (read_last_motion g k)).
Proof.
  repeat split.
  - apply COOLDOWN_read_last_motion.
  - unfold read_last_motion. destruct (dd_get 0 (last_motion_time g) k). reflexivity.
  - intros. apply is_recording_read_last_motion.
  - intros. apply last_motion_read_last_motion.
Qed.

(** ** The thread machines run alone are the source's functions *)

Lemma run_alone_S n e g t :
  run_alone (S n) e g t =
  let o := thread_step e g t in
  let o' := run_alone n e (o_globals o) (o_thread o) in
  mkOutcome (o_globals o') (o_thread o') (o_calls o ++ o_calls o')
            (o_spawned o ++ o_spawned o').
Proof. reflexivity. Qed.

Lemma run_alone_SDone n e g c :
  run_alone n e g (Send c SDone) = mkOutcome g (Send c SDone) [] [].
Proof.
  revert g. induction n as [|n IH]; intros g; [reflexivity|].
  rewrite run_alone_S. cbn [thread_step send_nvr_record_step o_globals o_thread].
  rewrite IH. reflexivity.
Qed.

Lemma run_alone_MDone n e g c :
  run_alone n e g (Monitor c MDone) = mkOutcome g (Monitor c MDone) [] [].
Proof.
  revert g. induction n as [|n IH]; intros g; [reflexivity|].
  rewrite run_alone_S. cbn [thread_step monitor_no_motion_stop_step o_globals o_thread].
  rewrite IH. reflexivity.
Qed.

Ltac one_step :=
  rewrite run_alone_S;
  cbn [thread_step send_nvr_record_step monitor_no_motion_stop_step process_step
       o_globals o_thread o_calls o_spawned].

Lemma send_nvr_record_run_alone e g c :
  run_alone 7 e g (Send c S51) = send_nvr_record e g c.
Proof.
  unfold send_nvr_record. do 2 one_step.
  destruct (read_recording g (name c)) as [r g1].
  cbn [o_globals o_thread o_calls o_spawned].
  destruct r; [rewrite run_alone_SDone; reflexivity|].
  one_step. destruct (read_last_motion g1 (name c)) as [l g2].
  cbn [o_globals o_thread o_calls o_spawned].
  destruct (Qltb (time_time e - l) (COOLDOWN g1));
    [rewrite run_alone_SDone; reflexivity|].
  one_step. destruct (put e).
  - do 3 one_step. reflexivity.
  - rewrite run_alone_SDone. reflexivity.
Qed.

Lemma stop_record_run_alone e g c :
  run_alone 2 e g (Monitor c M42) = stop_record e g c.
Proof.
  unfold stop_record. one_step. destruct (put e).
  - one_step. reflexivity.
  - rewrite run_alone_MDone. reflexivity.
Qed.

(** ** Counting threads and requests *)

Lemma count_app {A} (f : A -> bool) (l1 l2 : list A) :
  count f (l1 ++ l2) = (count f l1 + count f l2)%nat.
Proof. induction l1 as [|x l1 IH]; cbn; [reflexivity|]. rewrite IH. lia. Qed.

(** Replacing one element moves its weight in or out of the count. *)
Lemma count_insert {A} (f : A -> bool) (l : list A) (i : nat) (x y : A) :
  l !! i = Some x ->
  (count f (<[i := y]> l) + (if f x then 1 else 0) =
   count f l + (if f y then 1 else 0))%nat.
Proof.
  revert i. induction l as [|z l IH]; intros i Hi; [discriminate|].
  destruct i as [|i]; simpl in *.
  - injection Hi as ->. lia.
  - specialize (IH i Hi). lia.
Qed.

Lemma count_lookup {A} (f : A -> bool) (l : list A) (i : nat) (x : A) :
  l !! i = Some x -> f x = true -> (1 <= count f l)%nat.
Proof.
  revert i. induction l as [|z l IH]; intros i Hi Hf; [discriminate|].
  destruct i as [|i]; simpl in *.
  - injection Hi as ->. rewrite Hf. lia.
  - specialize (IH i Hi Hf). lia.
Qed.

Lemma count_none {A} (f : A -> bool) (l : list A) (i : nat) (x : A) :
  count f l = O -> l !! i = Some x -> f x = false.
Proof.
  intros H0 Hi. destruct (f x) eqn:Hf; [|reflexivity].
  pose proof (count_lookup f l i x Hi Hf). lia.
Qed.

Ltac split_reads :=
  repeat match goal with
  | |- context [read_recording ?g ?k] =>
      let r := fresh "r" in let g' := fresh "g" in
      let Hr := fresh "Hr" in let V := fresh "V" in
      pose proof (read_recording_fst g k) as Hr;
      pose proof (read_recording_view g k) as V;
      destruct (read_recording g k) as [r g']; cbn [fst snd] in Hr, V; subst r
  | |- context [read_last_motion ?g ?k] =>
      let r := fresh "l" in let g' := fresh "g" in
      let Hr := fresh "Hl" in let V := fresh "V" in
      pose proof (read_last_motion_fst g k) as Hr;
      pose proof (read_last_motion_view g k) as V;
      destruct (read_last_motion g k) as [r g']; cbn [fst snd] in Hr, V; subst r
  end.

Ltac use_views :=
  repeat match goal with
  | V : same_view _ _ |- _ =>
      let C := fresh "C" in let R := fresh "R" in
      let I := fresh "I" in let L := fresh "L" in
      destruct V as (C & R & I & L); try rewrite !I; try rewrite !L
  end.

(** Every way one step of a thread can go: its program counter, the values it
    reads and what the outside world answers. *)
Ltac split_world e :=
  repeat match goal with
  | |- context [put e] => destruct (put e)
  | |- context [running ?g] => destruct (running g)
  | |- context [if Qltb ?x ?y then _ else _] => destruct (Qltb x y)
  | |- context [if is_motion ?x ?y then _ else _] => destruct (is_motion x y)
  | |- context [if ?b || ?b' then _ else _] => destruct b, b'; cbn [orb negb]
  | |- context [init_cap e] => destruct (init_cap e)
  | |- context [interrupt e] => destruct (interrupt e)
  | |- context [cap_read e] => destruct (cap_read e)
  | |- context [ref_frame ?p] => destruct (ref_frame p)
  end.

Ltac thread_cases e g t :=
  destruct t as [pc|c pc|c pc|p pc]; destruct pc;
  cbn [thread_step main_step send_nvr_record_step monitor_no_motion_stop_step
       process_step];
  split_reads; cbn in *; use_views; split_world e; cbn;
  try rewrite is_recording_set_recording;
  try rewrite is_recording_set_last_motion;
  unfold bad_start, is_for; cbn;
  repeat case_bool_decide; repeat case_decide; subst;
  try match goal with
      | c : Camera |- _ => destruct (is_recording g (name c)) eqn:?
      end;
  cbn; repeat case_bool_decide.

(** ** The source's functions, case by case *)

(** What [send_nvr_record] does, case by case. *)
Lemma send_nvr_record_cases e g c :
  let o := send_nvr_record e g c in
  o_thread o = Send c SDone /\
  COOLDOWN (o_globals o) = COOLDOWN g /\
  running (o_globals o) = running g /\
  (forall k', k' <> name c ->
     is_recording (o_globals o) k' = is_recording g k' /\
     last_motion (o_globals o) k' = last_motion g k') /\
  if is_recording g (name c)
     || Qltb (time_time e - last_motion g (name c)) (COOLDOWN g)
  then
    o_calls o = [] /\ o_spawned o = [] /\ same_view g (o_globals o)
  else
    o_calls o = [mkCall StartTrack (name c) (track_id c) (put e) false] /\
    match put e with
    | Raised => o_spawned o = [] /\ same_view g (o_globals o)
    | Status _ =>
        o_spawned o = [Monitor c M79] /\
        is_recording (o_globals o) (name c) = true /\
        last_motion (o_globals o) (name c) = time_time e
    end.
Proof.
  cbv zeta. unfold send_nvr_record.
  pose proof (read_recording_fst g (name c)) as Hr.
  pose proof (read_recording_view g (name c)) as V1.
  destruct (read_recording g (name c)) as [r g1]. simpl in Hr, V1. subst r.
  pose proof (read_last_motion_fst g1 (name c)) as Hl.
  pose proof (read_last_motion_view g1 (name c)) as V2.
  destruct (read_last_motion g1 (name c)) as [l g2]. simpl in Hl, V2. subst l.
  pose proof (same_view_trans _ _ _ V1 V2) as V.
  destruct V1 as (C1 & R1 & I1 & L1). destruct V as (C2 & R2 & I2 & L2).
  rewrite L1, C1.
  destruct (is_recording g (name c)) eqn:Hrec; cbn [orb].
  { cbn. repeat split; auto. }
  destruct (Qltb _ _) eqn:Hcd.
  { cbn. repeat split; auto. }
  rewrite I2, Hrec.
  destruct (put e) eqn:Hput; cbn [o_thread o_globals o_calls o_spawned].
  - repeat split; auto.
    + rewrite is_recording_set_last_motion, is_recording_set_recording.
      rewrite decide_False by congruence. apply I2.
    + rewrite last_motion_set_last_motion, decide_False by congruence.
      rewrite last_motion_set_recording. apply L2.
    + rewrite is_recording_set_last_motion, is_recording_set_recording.
      rewrite decide_True by reflexivity. reflexivity.
    + rewrite last_motion_set_last_motion, decide_True by reflexivity. reflexivity.
  - repeat split; auto.
Qed.

Lemma process_frame_run_alone e g p :
  run_alone (frame_steps e p) e g (Process p P118) = process_frame e g p.
Proof.
  unfold frame_steps, process_frame.
  destruct (cap_read e) as [gray|] eqn:Hread.
  - destruct (ref_frame p) as [r|] eqn:Href.
    + destruct (is_motion (cam p) (contour_area e)) eqn:Hm.
      * one_step. rewrite Hread, Href, Hm. do 4 one_step. reflexivity.
      * one_step. rewrite Hread, Href, Hm. one_step. reflexivity.
    + one_step. rewrite Hread, Href. reflexivity.
  - one_step. rewrite Hread. reflexivity.
Qed.

(** ** One camera

    The invariants below are about the threads and requests of one camera,
    named by its key [k] in the module dictionaries; threads of other cameras
    take part in the executions as well. *)

Section OneCamera.

Variable k : string.

(** *** Executions without overlapping calls *)

(** A call past line 53 is before or after the assignment of line 65. *)
Lemma count_in_flight (l : list thread) :
  count (in_flight k) l = (count (early k) l + count (late k) l)%nat.
Proof.
  induction l as [|t l IH]; [reflexivity|]. cbn [count]. rewrite IH.
  destruct t as [pc|c pc|c pc|p pc]; try destruct pc; cbn; try case_bool_decide; lia.
Qed.

(** What one step of any thread does to the flag of camera [k] and to the
    place of that thread among the calls and watchdogs of [k]: a thread of
    neither kind leaves the flag alone and can only become a call that has just
    read the flag as false; a call before line 65 sets the flag only by moving
    past line 65; a call after line 65 leaves by starting one watchdog; a
    watchdog clears the flag only by leaving. *)
Lemma thread_step_flags e g t :
  let o := thread_step e g t in
  let r := is_recording g k in
  let r' := is_recording (o_globals o) k in
  let sw := count (watching k) (o_spawned o) in
  count (early k) (o_spawned o) = O /\
  count (late k) (o_spawned o) = O /\
  (early k t = false -> count (bad_start k) (o_calls o) = O) /\
  (r = false -> count (bad_start k) (o_calls o) = O) /\
  (early k t = false -> late k t = false -> watching k t = false ->
   late k (o_thread o) = false /\ watching k (o_thread o) = false /\ sw = O /\
   r' = r /\ (early k (o_thread o) = true -> r = false)) /\
  (early k t = true ->
   watching k (o_thread o) = false /\ sw = O /\
   ((late k (o_thread o) = false /\ r' = r) \/
    (early k (o_thread o) = false /\ late k (o_thread o) = true /\ r' = true))) /\
  (late k t = true ->
   early k (o_thread o) = false /\ watching k (o_thread o) = false /\ r' = r /\
   ((late k (o_thread o) = true /\ sw = O) \/
    (late k (o_thread o) = false /\ sw = 1%nat))) /\
  (watching k t = true ->
   early k (o_thread o) = false /\ late k (o_thread o) = false /\ sw = O /\
   (r' = r \/ (watching k (o_thread o) = false /\ r' = false))).
Proof.
  cbv zeta.
  thread_cases e g t;
    repeat split; intros; try discriminate; try congruence; try reflexivity;
    try (left; split; first [reflexivity | congruence]);
    try (right; repeat split; first [reflexivity | congruence]);
    try (left; reflexivity); try (right; split; reflexivity).
Qed.

Lemma flags_exclusive t :
  (early k t = false \/ late k t = false) /\
  (early k t = false \/ watching k t = false) /\
  (late k t = false \/ watching k t = false).
Proof.
  destruct t as [pc|c pc|c pc|p pc]; try destruct pc; cbn; tauto.
Qed.

(** One step keeps the invariant, provided it does not bring a second call
    past line 53. *)
Lemma orderly_step s ch :
  orderly k s ->
  (sends_in_flight k (step s ch) <= 1)%nat ->
  orderly k (step s ch).
Proof.
  intros (Hsum & Hidle & Hrec & Hbad) Hfree. revert Hfree.
  unfold step. destruct (threads s !! fst ch) as [t|] eqn:Hi;
    [|intros _; exact (conj Hsum (conj Hidle (conj Hrec Hbad)))].
  pose proof (thread_step_flags (snd ch) (globals s) t) as H. cbv zeta in H.
  destruct H as (Hse & Hsl & Hc1 & Hc2 & Hother & Hearly & Hlate & Hwatch).
  set (o := thread_step (snd ch) (globals s) t) in *.
  pose proof (count_insert (early k) (threads s) (fst ch) t (o_thread o) Hi) as Ie.
  pose proof (count_insert (late k) (threads s) (fst ch) t (o_thread o) Hi) as Il.
  pose proof (count_insert (watching k) (threads s) (fst ch) t (o_thread o) Hi) as Iw.
  unfold orderly, sends_in_flight, watchdogs in *. cbn [threads globals calls].
  rewrite !count_in_flight in *. rewrite !count_app. rewrite Hse, Hsl.
  intros Hfree.
  destruct (flags_exclusive t) as (X1 & X2 & X3).
  destruct (is_recording (globals s) k) eqn:Hr.
  - (* recording *)
    specialize (Hrec eq_refl).
    destruct (early k t) eqn:Et.
    { pose proof (count_lookup (early k) _ _ _ Hi Et). lia. }
    specialize (Hc1 eq_refl). rewrite Hc1.
    destruct (late k t) eqn:Lt.
    + destruct (Hlate eq_refl) as (E' & W' & R' & [[L' S']|[L' S']]);
        rewrite E', W', L' in *; rewrite S', R';
        (split; [lia|split; [intros; discriminate|split; [intros; lia|lia]]]).
    + destruct (watching k t) eqn:Wt.
      * destruct (Hwatch eq_refl) as (E' & L' & S' & [R'|[W' R']]);
          rewrite E', L' in *; rewrite S', R'.
        -- destruct (watching k (o_thread o));
             (split; [lia|split; [intros; discriminate|split; [intros; lia|lia]]]).
        -- rewrite W' in *.
           split; [lia|split; [intros; lia|split; [intros; discriminate|lia]]].
      * destruct (Hother eq_refl eq_refl eq_refl) as (L' & W' & S' & R' & Hno).
        rewrite L', W' in *. rewrite S', R'.
        destruct (early k (o_thread o)); [specialize (Hno eq_refl); discriminate|].
        split; [lia|split; [intros; discriminate|split; [intros; lia|lia]]].
  - (* not recording *)
    destruct (Hidle eq_refl) as [Hw0 Hl0].
    specialize (Hc2 eq_refl). rewrite Hc2.
    destruct (late k t) eqn:Lt.
    { pose proof (count_lookup (late k) _ _ _ Hi Lt). lia. }
    destruct (watching k t) eqn:Wt.
    { pose proof (count_lookup (watching k) _ _ _ Hi Wt). lia. }
    destruct (early k t) eqn:Et.
    + destruct (Hearly eq_refl) as (W' & S' & [[L' R']|(E' & L' & R')]).
      * rewrite W', L' in *. rewrite S', R'.
        destruct (early k (o_thread o));
          (split; [lia|split; [intros; lia|split; [intros; discriminate|lia]]]).
      * rewrite W', L', E' in *. rewrite S', R'.
        split; [lia|split; [intros; discriminate|split; [intros; lia|lia]]].
    + destruct (Hother eq_refl eq_refl eq_refl) as (L' & W' & S' & R' & _).
      rewrite L', W' in *. rewrite S', R'.
      destruct (early k (o_thread o));
        (split; [lia|split; [intros; lia|split; [intros; discriminate|lia]]]).
Qed.

Lemma orderly_run sched s :
  orderly k s -> overlap_free k sched s = true -> orderly k (run sched s).
Proof.
  revert s. induction sched as [|ch sched IH]; intros s Hs Hfree; [exact Hs|].
  cbn [overlap_free] in Hfree. apply andb_true_iff in Hfree as [_ Hfree].
  change (run (ch :: sched) s) with (run sched (step s ch)).
  apply IH; [|exact Hfree].
  apply orderly_step; [exact Hs|].
  destruct sched; cbn [overlap_free] in Hfree;
    apply andb_true_iff in Hfree as [Hnow _]; apply Nat.leb_le in Hnow; exact Hnow.
Qed.

Lemma orderly_boot cooldown cams : orderly k (boot cooldown cams).
Proof.
  unfold orderly, boot, watchdogs, sends_in_flight. cbn [threads calls globals].
  generalize (processors cams). intros l.
  assert (H : forall f : thread -> bool,
             (forall p pc, f (Process p pc) = false) -> f (Main J168) = false ->
             count f (Main J168 :: map (fun kv => Process (snd kv) P106) l) = O).
  { intros f Hp Hm. cbn [count]. rewrite Hm.
    induction l as [|kv l IH]; [reflexivity|]. cbn [map count]. rewrite Hp. exact IH. }
  rewrite !H by reflexivity. repeat split; try reflexivity; lia.
Qed.

(** *** Stuck cameras *)

(** While camera [k] is flagged as recording, a thread that is neither a call
    past line 53 nor a watchdog of [k] stays so, keeps the flag, starts no such
    thread and sends nothing for [k]. *)
Lemma quiet_step e g t :
  is_recording g k = true ->
  in_flight k t = false ->
  watching k t = false ->
  let o := thread_step e g t in
  is_recording (o_globals o) k = true /\
  in_flight k (o_thread o) = false /\
  watching k (o_thread o) = false /\
  count (in_flight k) (o_spawned o) = O /\
  count (watching k) (o_spawned o) = O /\
  count (is_for k) (o_calls o) = O.
Proof.
  intros Hrec Hf Hw. cbv zeta.
  thread_cases e g t; try (intuition congruence).
Qed.

Lemma stuck_step s ch :
  stuck k s ->
  stuck k (step s ch) /\
  exists more, calls (step s ch) = calls s ++ more /\ count (is_for k) more = O.
Proof.
  intros (Hrec & Hf & Hw). unfold step.
  destruct (threads s !! fst ch) as [t|] eqn:Hi.
  2:{ split; [repeat split; assumption|]. exists []. split; [symmetry; apply app_nil_r|reflexivity]. }
  pose proof (count_none _ _ _ _ Hf Hi) as Hft.
  pose proof (count_none _ _ _ _ Hw Hi) as Hwt.
  destruct (quiet_step (snd ch) (globals s) t Hrec Hft Hwt)
    as (Hrec' & Hf' & Hw' & Hsf & Hsw & Hcalls).
  split.
  - unfold stuck, sends_in_flight, watchdogs. cbn [globals threads].
    rewrite !count_app.
    pose proof (count_insert (in_flight k) (threads s) (fst ch) t
                  (o_thread (thread_step (snd ch) (globals s) t)) Hi) as H1.
    pose proof (count_insert (watching k) (threads s) (fst ch) t
                  (o_thread (thread_step (snd ch) (globals s) t)) Hi) as H2.
    unfold sends_in_flight in Hf. unfold watchdogs in Hw.
    rewrite Hft, Hf' in H1. rewrite Hwt, Hw' in H2.
    repeat split; [assumption|lia|lia].
  - cbn [calls]. eexists. split; [reflexivity|exact Hcalls].
Qed.

(** A stuck camera stays stuck under every schedule, and nothing more is sent
    for it. *)
Lemma stuck_run sched s :
  stuck k s ->
  stuck k (run sched s) /\
  exists more, calls (run sched s) = calls s ++ more /\ count (is_for k) more = O.
Proof.
  revert s. induction sched as [|ch sched IH]; intros s Hs.
  - split; [exact Hs|]. exists []. split; [symmetry; apply app_nil_r|reflexivity].
  - destruct (stuck_step s ch Hs) as (Hs' & m1 & E1 & Z1).
    destruct (IH _ Hs') as (Hs'' & m2 & E2 & Z2).
    split; [exact Hs''|]. exists (m1 ++ m2). split.
    + change (run (ch :: sched) s) with (run sched (step s ch)).
      rewrite E2, E1, app_assoc. reflexivity.
    + rewrite count_app. lia.
Qed.

(** In an orderly state a watchdog about to send its stop request is the only
    watchdog of its camera, no call of the camera is past line 53 and the flag
    is true. *)
Lemma lone_watchdog s i c :
  orderly k s ->
  name c = k ->
  threads s !! i = Some (Monitor c M42) ->
  is_recording (globals s) k = true /\
  watchdogs k s = 1%nat /\
  sends_in_flight k s = O.
Proof.
  intros (Hsum & Hidle & _ & _) Hk Hi.
  assert (Hw : (1 <= watchdogs k s)%nat).
  { apply (count_lookup (watching k) (threads s) i (Monitor c M42) Hi).
    cbn. apply bool_decide_eq_true_2. exact Hk. }
  split; [|lia].
  destruct (is_recording (globals s) k); [reflexivity|].
  destruct (Hidle eq_refl) as [Hzero _]. lia.
Qed.

End OneCamera.

(** ** One thread among the others *)

(** What a step of the program leaves at place [i]. *)
Lemma step_lookup s ch i t :
  threads s !! i = Some t ->
  threads (step s ch) !! i =
  Some (if decide (fst ch = i)
        then o_thread (thread_step (snd ch) (globals s) t) else t).
Proof.
  intros Hi. unfold step.
  destruct (decide (fst ch = i)) as [->|Hne].
  - rewrite Hi. cbn [threads]. rewrite lookup_app_l.
    + apply list_lookup_insert_eq. eapply lookup_lt_Some. exact Hi.
    + rewrite length_insert. eapply lookup_lt_Some. exact Hi.
  - destruct (threads s !! fst ch) as [t0|]; [|exact Hi].
    cbn [threads]. rewrite lookup_app_l.
    + rewrite list_lookup_insert_ne by exact Hne. exact Hi.
    + rewrite length_insert. eapply lookup_lt_Some. exact Hi.
Qed.

(** ** A call within the cooldown *)

Section Suppressed.

Variables (c : Camera) (now : Q) (i : nat).




End Suppressed.

(** ** The claims *)

Ltac closed := vm_compute; first [reflexivity | discriminate].

(** *** The watchdog's stop (C1, C9) *)

(** C1, counterexample.  A recording is started at clock 1000; at clock 1011
    the watchdog finds the timeout of 10 seconds exceeded and sends the stop
    request, which raises.  The watchdog has left its loop and
    [recording_state] is still true: line 44 sits inside the [try] and the
    handler of lines 45-46 only prints. *)
Lemma failed_stop_keeps_flag :
  calls after_failed_stop =
    [mkCall StartTrack "cam1" 301 (Status 200) false;
     mkCall StopTrack "cam1" 301 Raised true] /\
  threads after_failed_stop !! 3%nat = Some (Monitor cam1 MDone) /\
  is_recording (globals after_failed_stop) "cam1" = true.
Proof. vm_compute. repeat split. Qed.

(** C1, as amended.  When the watchdog finds [now - last_motion_time] above
    the camera's timeout it sends one stop request for the camera's track and
    leaves its loop.  If the request is answered (with any status) the flag is
    cleared; if it raises the flag keeps the value it had. *)
Theorem watchdog_timeout_stops e g c now :
  no_motion_timeout c < now - last_motion g (name c) ->
  let o := run_alone 3 e g (Monitor c (M81 now)) in
  o_thread o = Monitor c MDone /\
  o_calls o = [mkCall StopTrack (name c) (track_id c) (put e)
                      (is_recording g (name c))] /\
  o_spawned o = [] /\
  is_recording (o_globals o) (name c) =
    match put e with
    | Status _ => false
    | Raised => is_recording g (name c)
    end.
Proof.
  intros Hlate. cbv zeta. one_step.
  pose proof (read_last_motion_fst g (name c)) as Hl.
  pose proof (read_last_motion_view g (name c)) as (_ & _ & I & _).
  destruct (read_last_motion g (name c)) as [l g1]. cbn [fst snd] in Hl, I. subst l.
  apply (proj2 (Qltb_lt _ _)) in Hlate. rewrite Hlate.
  cbn [o_globals o_thread o_calls o_spawned].
  rewrite stop_record_run_alone. unfold stop_record. rewrite I.
  destruct (put e); cbn [o_globals o_thread o_calls o_spawned app]; repeat split.
  - rewrite is_recording_set_recording, decide_True by reflexivity. reflexivity.
  - apply I.
Qed.

(** C1, witness: the watchdog of [before_failed_stop] at clock 1011. *)
Lemma watchdog_timeout_stops_witness :
  o_thread (run_alone 3 (put_raises 1011) (globals before_failed_stop)
              (Monitor cam1 (M81 1011))) = Monitor cam1 MDone.
Proof.
  refine (proj1 (watchdog_timeout_stops (put_raises 1011)
                   (globals before_failed_stop) cam1 1011 _)).
  closed.
Defined.

(** C9, counterexample.  Two overlapping [send_nvr_record] calls have started
    two watchdogs.  The stop request of the first raises: it leaves its loop,
    the flag stays true.  The second watchdog then sends a stop request of its
    own. *)
Lemma stop_sent_after_failed_stop :
  calls after_first_failure =
    [mkCall StartTrack "cam1" 301 (Status 200) false;
     mkCall StartTrack "cam1" 301 (Status 200) true;
     mkCall StopTrack "cam1" 301 Raised true] /\
  threads after_first_failure !! 4%nat = Some (Monitor cam1 MDone) /\
  is_recording (globals after_first_failure) "cam1" = true /\
  calls (run second_watchdog_stops after_first_failure) =
    calls after_first_failure ++ [mkCall StopTrack "cam1" 301 (Status 200) true].
Proof. vm_compute. repeat split. Qed.

(** C9, as amended.  Let a watchdog's stop request raise while the camera is
    flagged as recording.  Then the watchdog leaves its loop and the flag stays
    true.  If moreover this watchdog is the camera's only one and no
    [send_nvr_record] of the camera is past the test of line 53, then in every
    later state of the program, whatever the schedule, the flag is still true
    and no further request of either kind has been sent for the camera. *)
Theorem failed_stop_sticks s i c e :
  threads s !! i = Some (Monitor c M42) ->
  put e = Raised ->
  is_recording (globals s) (name c) = true ->
  threads (step s (i, e)) !! i = Some (Monitor c MDone) /\
  is_recording (globals (step s (i, e))) (name c) = true /\
  (watchdogs (name c) s = 1%nat ->
   sends_in_flight (name c) s = O ->
   forall sched,
     is_recording (globals (run sched (step s (i, e)))) (name c) = true /\
     exists more,
       calls (run sched (step s (i, e))) = calls (step s (i, e)) ++ more /\
       count (is_for (name c)) more = O).
Proof.
  intros Hi Hput Hrec.
  assert (Hstep : step s (i, e) =
                  mkSystem (globals s) (<[i := Monitor c MDone]> (threads s) ++ [])
                    (calls s ++ [mkCall StopTrack (name c) (track_id c) Raised true])).
  { unfold step. cbn [fst snd]. rewrite Hi.
    cbn [thread_step monitor_no_motion_stop_step]. rewrite Hput, Hrec. reflexivity. }
  split; [|split].
  - rewrite Hstep. cbn [threads]. rewrite app_nil_r.
    apply list_lookup_insert_eq. eapply lookup_lt_Some. exact Hi.
  - rewrite Hstep. exact Hrec.
  - intros Hw Hf sched.
    assert (Hstuck : stuck (name c) (step s (i, e))).
    { rewrite Hstep. unfold stuck, sends_in_flight, watchdogs. cbn [globals threads].
      rewrite app_nil_r.
      pose proof (count_insert (in_flight (name c)) (threads s) i _
                    (Monitor c MDone) Hi) as H1.
      pose proof (count_insert (watching (name c)) (threads s) i _
                    (Monitor c MDone) Hi) as H2.
      unfold sends_in_flight in Hf. unfold watchdogs in Hw.
      cbn [in_flight watching] in H1, H2.
      rewrite bool_decide_eq_true_2 in H2 by reflexivity.
      repeat split; [exact Hrec|lia|lia]. }
    destruct (stuck_run (name c) sched _ Hstuck) as ((Hr & _) & Hmore).
    split; assumption.
Qed.

(** C9, witness: after the failed stop of [after_failed_stop], motion at clock
    1030 starts thread 4, which returns at line 54. *)
Lemma failed_stop_sticks_witness :
  is_recording
    (globals (run (motion_frame 1030 ++ thread_runs 4 7 (world 1030))
                  (step before_failed_stop (3%nat, put_raises 1011)))) "cam1" = true.
Proof.
  refine (proj1 (proj2 (proj2 (failed_stop_sticks before_failed_stop 3 cam1
                                 (put_raises 1011) _ _ _)) _ _
                   (motion_frame 1030 ++ thread_runs 4 7 (world 1030)))); closed.
Defined.

(** *** The tests of send_nvr_record (C2, C5) *)

(** C2, counterexample.  Thread 2 sends its start request at clock 1000 and is
    answered at clock 1002; thread 3, started by the motion frame of clock
    1002, has by then read the flag as false at line 53 and passed line 56.
    Thread 2 sets the flag, and thread 3 sends its own start request: a start
    request sent while [recording_state] is true. *)
Lemma overlapping_start_while_recording :
  calls (run overlapping_starts (boot 1 [cam1])) =
    [mkCall StartTrack "cam1" 301 (Status 200) false;
     mkCall StartTrack "cam1" 301 (Status 200) true] /\
  count (bad_start "cam1") (calls (run overlapping_starts (boot 1 [cam1]))) = 1%nat.
Proof. vm_compute. repeat split. Qed.

(** C2, as amended.  A [send_nvr_record] that finds the flag of its camera
    true at line 53 returns without sending a request and without starting a
    watchdog: as a call, and as the step of line 53 in any state of the program.
    In every execution in which no two [send_nvr_record] calls of that camera
    are past line 53 at the same time, no start request for the camera is sent
    while its flag is true. *)
Theorem recording_guard e g c :
  is_recording g (name c) = true ->
  (let o := send_nvr_record e g c in
   o_thread o = Send c SDone /\ o_calls o = [] /\ o_spawned o = []) /\
  (forall s i now e',
     globals s = g ->
     threads s !! i = Some (Send c (S53 now)) ->
     threads (step s (i, e')) !! i = Some (Send c SDone) /\
     calls (step s (i, e')) = calls s /\
     length (threads (step s (i, e'))) = length (threads s)) /\
  (forall cooldown cams sched,
     overlap_free (name c) sched (boot cooldown cams) = true ->
     count (bad_start (name c)) (calls (run sched (boot cooldown cams))) = O).
Proof.
  intros Hrec. split; [|split].
  - cbv zeta. pose proof (send_nvr_record_cases e g c) as H. cbv zeta in H.
    rewrite Hrec in H. cbn [orb] in H. tauto.
  - intros s i now e' Hg Hi. unfold step. cbn [fst snd]. rewrite Hi, Hg.
    cbn [thread_step send_nvr_record_step].
    pose proof (read_recording_fst g (name c)) as Hr.
    destruct (read_recording g (name c)) as [r g1]. cbn [fst] in Hr. subst r.
    rewrite Hrec. cbn [o_globals o_thread o_calls o_spawned threads calls].
    rewrite !app_nil_r. repeat split.
    + apply list_lookup_insert_eq. eapply lookup_lt_Some. exact Hi.
    + apply length_insert.
  - intros cooldown cams sched Hfree.
    apply (orderly_run (name c) sched (boot cooldown cams)
             (orderly_boot (name c) cooldown cams) Hfree).
Qed.

(** C2, witness: a call while [before_failed_stop] is recording, and the
    execution [single_start], in which no calls overlap. *)
Lemma recording_guard_witness :
  o_calls (send_nvr_record (world 1011) (globals before_failed_stop) cam1) = [] /\
  count (bad_start "cam1") (calls (run single_start (boot 30 [cam1]))) = O.
Proof.
  assert (Hrec : is_recording (globals before_failed_stop) (name cam1) = true)
    by closed.
  split.
  - exact (proj1 (proj2 (proj1 (recording_guard (world 1011)
                                  (globals before_failed_stop) cam1 Hrec)))).
  - refine (proj2 (proj2 (recording_guard (world 1011)
                            (globals before_failed_stop) cam1 Hrec))
              30 [cam1] single_start _).
    closed.
Defined.

(** C5, counterexample.  With a cooldown of 2 seconds, thread 4 is started
    for motion at clock 1003 while the camera is not recording and the last
    motion time is 1001.5, so the cooldown has not passed.  Line 141 then
    stores 1003.  Before thread 4 reaches line 56, the call of thread 2, whose
    request was pending since clock 1000, is answered and stores its own
    [now] of 1000 at line 66.  Thread 4 reads 1000 at line 56, finds the
    cooldown passed, and sends a second start request. *)
Lemma stale_store_defeats_cooldown :
  threads at_delivery !! 4%nat = Some (Send cam1 S51) /\
  is_recording (globals at_delivery) "cam1" = false /\
  Qltb (1003 - last_motion (globals at_delivery) "cam1")
       (COOLDOWN (globals at_delivery)) = true /\
  threads (run stale_clock_race at_delivery) !! 4%nat
    = Some (Send cam1 (S65 1003)) /\
  calls (run stale_clock_race at_delivery)
    = [mkCall StartTrack "cam1" 301 (Status 200) false;
       mkCall StartTrack "cam1" 301 (Status 200) true].
Proof. repeat split; closed. Qed.



(** *** Overlapping calls (C3, C7) *)

(** C3, counterexample.  The program takes no lock.  On an idle camera the two
    [send_nvr_record] threads of [overlapping_starts] both pass the test of
    line 53 before either sets the flag, and two start requests are sent. *)
Lemma overlapping_starts_both_sent :
  is_recording (globals (boot 1 [cam1])) "cam1" = false /\
  count (is_start "cam1") (calls (run overlapping_starts (boot 1 [cam1]))) = 2%nat.
Proof. vm_compute. repeat split. Qed.

(** C3, as amended.  When two motion events on a camera that is not recording
    are handled by [send_nvr_record] one after the other, the cooldown has
    elapsed for the first and its start request is answered, exactly one start
    request is sent in total and exactly one watchdog is started. *)
Theorem back_to_back_starts e1 e2 g c code :
  is_recording g (name c) = false ->
  COOLDOWN g <= time_time e1 - last_motion g (name c) ->
  put e1 = Status code ->
  let o1 := send_nvr_record e1 g c in
  let o2 := send_nvr_record e2 (o_globals o1) c in
  count (is_start (name c)) (o_calls o1 ++ o_calls o2) = 1%nat /\
  o_spawned o1 ++ o_spawned o2 = [Monitor c M79].
Proof.
  intros Hrec Hcd Hput. cbv zeta.
  pose proof (send_nvr_record_cases e1 g c) as H1. cbv zeta in H1.
  apply (proj2 (Qltb_ge _ _)) in Hcd.
  rewrite Hrec, Hcd, Hput in H1. cbn [orb] in H1.
  destruct H1 as (_ & _ & _ & _ & Hc1 & Hs1 & Hrec1 & _).
  pose proof (send_nvr_record_cases e2 (o_globals (send_nvr_record e1 g c)) c) as H2.
  cbv zeta in H2. rewrite Hrec1 in H2. cbn [orb] in H2.
  destruct H2 as (_ & _ & _ & _ & Hc2 & Hs2 & _).
  rewrite Hc1, Hs1, Hc2, Hs2. cbn. rewrite bool_decide_eq_true_2 by reflexivity.
  split; reflexivity.
Qed.

(** C3, witness: the two motion events of [overlapping_starts], handled one
    after the other. *)
Lemma back_to_back_starts_witness :
  count (is_start "cam1")
    (o_calls (send_nvr_record (world 1000) (globals (boot 1 [cam1])) cam1)
     ++ o_calls (send_nvr_record (world 1002)
                   (o_globals (send_nvr_record (world 1000)
                                 (globals (boot 1 [cam1])) cam1)) cam1)) = 1%nat.
Proof.
  refine (proj1 (back_to_back_starts (world 1000) (world 1002)
                   (globals (boot 1 [cam1])) cam1 200 _ _ _)); closed.
Defined.

(** C7, counterexample.  After [overlapping_starts] two watchdogs of the same
    camera are in their loops. *)
Lemma overlapping_starts_two_watchdogs :
  watchdogs "cam1" (run overlapping_starts (boot 1 [cam1])) = 2%nat /\
  threads (run overlapping_starts (boot 1 [cam1])) !! 4%nat = Some (Monitor cam1 M79) /\
  threads (run overlapping_starts (boot 1 [cam1])) !! 5%nat = Some (Monitor cam1 M79).
Proof. vm_compute. repeat split. Qed.

(** C7, as amended.  In every state reached by an execution in which no two
    [send_nvr_record] calls of a camera are past line 53 at the same time, at
    most one watchdog of that camera is in its loop, and a [send_nvr_record]
    called while one is starts no other. *)
Theorem one_watchdog_without_overlap cooldown cams sched k :
  overlap_free k sched (boot cooldown cams) = true ->
  (watchdogs k (run sched (boot cooldown cams)) <= 1)%nat /\
  forall e c,
    name c = k ->
    watchdogs k (run sched (boot cooldown cams)) = 1%nat ->
    o_spawned (send_nvr_record e (globals (run sched (boot cooldown cams))) c) = [].
Proof.
  intros Hfree.
  pose proof (orderly_run k sched (boot cooldown cams)
                (orderly_boot k cooldown cams) Hfree) as (Hsum & Hidle & _ & _).
  split; [lia|].
  intros e c Hk Hone. subst k.
  pose proof (send_nvr_record_cases e (globals (run sched (boot cooldown cams))) c)
    as H. cbv zeta in H.
  destruct (is_recording (globals (run sched (boot cooldown cams))) (name c)) eqn:Hrec.
  - cbn [orb] in H. tauto.
  - destruct (Hidle eq_refl) as [Hzero _]. lia.
Qed.

(** C7, witness: the execution [single_start], whose one call starts the one
    watchdog. *)
Lemma one_watchdog_without_overlap_witness :
  (watchdogs "cam1" (run single_start (boot 30 [cam1])) <= 1)%nat.
Proof.
  refine (proj1 (one_watchdog_without_overlap 30 [cam1] single_start "cam1" _)).
  closed.
Defined.

(** *** A start request that raises (C4) *)

(** C4, counterexample.  With a cooldown of 30 seconds the start request for
    the motion frame of clock 1000 raises; line 141 stores that clock.  The
    next motion frame, one second later, is handled by thread 3, which returns
    at line 57: the failed request is the only one sent. *)
Lemma failed_start_not_retried :
  calls (run failed_start_then_motion (boot 30 [cam1])) =
    [mkCall StartTrack "cam1" 301 Raised false] /\
  threads (run failed_start_then_motion (boot 30 [cam1])) !! 3%nat =
    Some (Send cam1 SDone) /\
  is_recording (globals (run failed_start_then_motion (boot 30 [cam1]))) "cam1" = false.
Proof. vm_compute. repeat split. Qed.

(** C4, as amended.  If the start request raises, the call leaves the flag
    false and [last_motion_time] as it was and starts no watchdog.  A later
    [send_nvr_record] that finds the flag false sends a start request exactly
    when [now - last_motion_time] is not below [COOLDOWN] at that time. *)
Theorem failed_start_leaves_idle e g c :
  is_recording g (name c) = false ->
  COOLDOWN g <= time_time e - last_motion g (name c) ->
  put e = Raised ->
  let o := send_nvr_record e g c in
  o_calls o = [mkCall StartTrack (name c) (track_id c) Raised false] /\
  o_spawned o = [] /\
  is_recording (o_globals o) (name c) = false /\
  last_motion (o_globals o) (name c) = last_motion g (name c) /\
  forall e' g',
    is_recording g' (name c) = false ->
    o_calls (send_nvr_record e' g' c) =
    if Qltb (time_time e' - last_motion g' (name c)) (COOLDOWN g') then []
    else [mkCall StartTrack (name c) (track_id c) (put e') false].
Proof.
  intros Hrec Hcd Hput. cbv zeta.
  pose proof (send_nvr_record_cases e g c) as H. cbv zeta in H.
  apply (proj2 (Qltb_ge _ _)) in Hcd.
  rewrite Hrec, Hcd, Hput in H. cbn [orb] in H.
  destruct H as (_ & _ & _ & _ & Hc & Hs & (_ & _ & I & L)).
  repeat split; try assumption.
  - rewrite I. exact Hrec.
  - apply L.
  - intros e' g' Hrec'.
    pose proof (send_nvr_record_cases e' g' c) as H. cbv zeta in H.
    rewrite Hrec' in H. cbn [orb] in H.
    destruct (Qltb (time_time e' - last_motion g' (name c)) (COOLDOWN g')); tauto.
Qed.

(** C4, witness: the first start request of a freshly booted program raises. *)
Lemma failed_start_leaves_idle_witness :
  is_recording
    (o_globals (send_nvr_record (put_raises 1000) (globals (boot 30 [cam1])) cam1))
    "cam1" = false.
Proof.
  refine (proj1 (proj2 (proj2 (failed_start_leaves_idle (put_raises 1000)
                                 (globals (boot 30 [cam1])) cam1 _ _ _)))); closed.
Defined.

(** *** The frame loop (C6, C8, C10) *)

(** C6.  A pass of the frame loop over a frame that is not the first and
    whose motion area exceeds the camera's threshold stores the clock of line
    141 in [last_motion_time], whatever the globals are when the frame is read:
    recording or not, within the cooldown or not.  The store of line 141 does
    so in any state of the program, whatever the thread of line 140 has done
    by then. *)
Theorem motion_frame_stamps_clock e g p gray r :
  ref_frame p = Some r ->
  cap_read e = Some gray ->
  threshold (cam p) < contour_area e ->
  let o := process_frame e g p in
  last_motion (o_globals o) (name (cam p)) = time_time e /\
  o_spawned o = [Send (cam p) S51] /\
  forall s i e' gray' area,
    threads s !! i = Some (Process p (P141 gray' area)) ->
    last_motion (globals (step s (i, e'))) (name (cam p)) = time_time e'.
Proof.
  intros Href Hread Hm. cbv zeta. apply (proj2 (Qltb_lt _ _)) in Hm.
  unfold process_frame. rewrite Hread, Href. unfold is_motion. rewrite Hm.
  cbn [o_globals o_spawned].
  repeat split.
  - rewrite last_motion_set_last_motion, decide_True by reflexivity. reflexivity.
  - intros s i e' gray' area Hi. unfold step. cbn [fst snd]. rewrite Hi.
    cbn [thread_step process_step o_globals globals].
    rewrite last_motion_set_last_motion, decide_True by reflexivity. reflexivity.
Qed.

(** C6, witness: a frame scoring 800 at clock 1011 while the camera is
    recording. *)
Lemma motion_frame_stamps_clock_witness :
  last_motion
    (o_globals (process_frame (frame 1011 800) (globals before_failed_stop)
                  cam1_processor)) "cam1" = 1011.
Proof.
  refine (proj1 (motion_frame_stamps_clock (frame 1011 800)
                   (globals before_failed_stop) cam1_processor [0%Z] [0%Z] _ _ _));
    closed.
Defined.

(** C8.  A pass of the frame loop over a frame that is not the first ends at
    the sleep of line 149 with the frame counter increased by one; the
    reference frame is the current frame if that counter is a multiple of 300
    or the motion area is below a tenth of the camera's threshold, and is the
    previous reference frame otherwise. *)
Theorem reference_refresh_policy e g p gray r :
  ref_frame p = Some r ->
  cap_read e = Some gray ->
  exists p',
    o_thread (process_frame e g p) = Process p' P149 /\
    frame_count p' = (frame_count p + 1)%Z /\
    ((frame_count p' mod 300 = 0)%Z \/
     contour_area e < threshold (cam p) * (1 # 10) ->
     ref_frame p' = Some gray) /\
    (~ ((frame_count p' mod 300 = 0)%Z \/
        contour_area e < threshold (cam p) * (1 # 10)) ->
     ref_frame p' = Some r).
Proof.
  intros Href Hread.
  destruct p as [c cp rf fc rc]. cbn [ref_frame cam frame_count] in *. subst rf.
  set (p1 := mkProcessor c cp (Some r) (fc + 1) rc).
  exists (refresh p1 gray (contour_area e)).
  assert (Hdue : refresh_due p1 (contour_area e) = true <->
                 (frame_count p1 mod 300 = 0)%Z \/
                 contour_area e < threshold c * (1 # 10)).
  { unfold refresh_due. rewrite orb_true_iff, Z.eqb_eq.
    unfold low_motion. rewrite Qltb_lt. reflexivity. }
  assert (Hcount : frame_count (refresh p1 gray (contour_area e)) = (fc + 1)%Z).
  { unfold refresh. destruct (refresh_due p1 (contour_area e)); reflexivity. }
  split; [|split; [exact Hcount|split]].
  - unfold process_frame. rewrite Hread. cbn [ref_frame cam cap frame_count reconnects].
    fold p1. destruct (is_motion c (contour_area e)); reflexivity.
  - rewrite Hcount. intros H. apply Hdue in H. unfold refresh. rewrite H. reflexivity.
  - rewrite Hcount. intros H. unfold refresh.
    destruct (refresh_due p1 (contour_area e)) eqn:E.
    + exfalso. apply H. apply Hdue. reflexivity.
    + reflexivity.
Qed.

(** C8, witness: a quiet frame (area 20, threshold 500) replaces the
    reference frame [[7]] of a processor at frame 41. *)
Lemma reference_refresh_policy_witness :
  exists p',
    o_thread (process_frame (frame 1011 20) (globals before_failed_stop)
                (mkProcessor cam1 true (Some [7%Z]) 41 1)) = Process p' P149 /\
    frame_count p' = (41 + 1)%Z /\
    ((frame_count p' mod 300 = 0)%Z \/ 20 < 500 * (1 # 10) ->
     ref_frame p' = Some [0%Z]) /\
    (~ ((frame_count p' mod 300 = 0)%Z \/ 20 < 500 * (1 # 10)) ->
     ref_frame p' = Some [7%Z]).
Proof.
  refine (reference_refresh_policy (frame 1011 20) (globals before_failed_stop)
            (mkProcessor cam1 true (Some [7%Z]) 41 1) [0%Z] [7%Z] _ _); closed.
Defined.

(** C10.  For a threshold that is not negative, an area above the threshold
    is not below a tenth of it: the tests of lines 137 and 143 do not both
    succeed.  So a frame that counts as motion replaces the reference frame
    only when the frame counter is a multiple of 300. *)
Theorem motion_excludes_quiet p area :
  0 <= threshold (cam p) ->
  is_motion (cam p) area = true ->
  low_motion (cam p) area = false /\
  refresh_due p area = (frame_count p mod 300 =? 0)%Z /\
  forall gray,
    ref_frame (refresh p gray area) =
    if (frame_count p mod 300 =? 0)%Z then Some gray else ref_frame p.
Proof.
  intros Hth Hm. apply (proj1 (Qltb_lt _ _)) in Hm.
  assert (Hlow : low_motion (cam p) area = false).
  { apply Qltb_ge. lra. }
  assert (Hdue : refresh_due p area = (frame_count p mod 300 =? 0)%Z).
  { unfold refresh_due. rewrite Hlow. apply orb_false_r. }
  repeat split; auto.
  intros gray. unfold refresh. rewrite Hdue.
  destruct (frame_count p mod 300 =? 0)%Z; reflexivity.
Qed.

(** C10, witness: area 800 against the threshold 500 of [cam1]. *)
Lemma motion_excludes_quiet_witness : low_motion cam1 800 = false.
Proof.
  refine (proj1 (motion_excludes_quiet cam1_processor 800 _ _)); closed.
Defined.

(** * The rest of the program *)

(** ** The recorder's URLs *)

Lemma app_cancel (p s1 s2 : string) : p +:+ s1 = p +:+ s2 -> s1 = s2.
Proof. induction p as [|a p IH]; cbn; intros H; [exact H|]. injection H as H. auto. Qed.

(** X1.  For one recorder address, two requests go to the same URL exactly when
    they are of the same kind (start or stop) and for the same track: a start
    URL is never a stop URL, and different tracks never share a URL. *)
Theorem urls_distinct ip (x y : call) :
  url_of ip x = url_of ip y <-> verb x = verb y /\ track x = track y.
Proof.
  split.
  - unfold url_of, start_url, stop_url. intros H.
    destruct (verb x), (verb y);
      do 2 apply app_cancel in H; cbn in H; try discriminate;
      (split; [reflexivity|]);
      repeat (injection H as H); exact (pretty_Z_inj _ _ H).
  - intros [Hv Ht]. unfold url_of. rewrite Hv, Ht. reflexivity.
Qed.

(** ** The dict of processors *)

Lemma dict_get_set k v d k' :
  dict_get k' (dict_set k v d) = if decide (k' = k) then Some v else dict_get k' d.
Proof.
  induction d as [|[k0 v0] d IH]; cbn.
  - destruct (decide (k' = k)); reflexivity.
  - destruct (decide (k = k0)) as [->|Hne]; cbn.
    + destruct (decide (k' = k0)); reflexivity.
    + destruct (decide (k' = k0)) as [->|Hne'].
      * rewrite decide_False by congruence. reflexivity.
      * exact IH.
Qed.

Lemma dict_set_keys k v d k' :
  k' ∈ (dict_set k v d).*1 <-> k' = k \/ k' ∈ d.*1.
Proof.
  induction d as [|[k0 v0] d IH]; cbn.
  - rewrite list_elem_of_singleton. rewrite elem_of_nil. tauto.
  - destruct (decide (k = k0)) as [->|Hne]; cbn; rewrite !elem_of_cons.
    + tauto.
    + rewrite IH. tauto.
Qed.

Lemma dict_set_NoDup k v d : NoDup d.*1 -> NoDup (dict_set k v d).*1.
Proof.
  induction d as [|[k0 v0] d IH]; cbn; intros Hnd.
  - apply NoDup_singleton.
  - apply NoDup_cons in Hnd as [Hnotin Hnd].
    destruct (decide (k = k0)) as [->|Hne]; cbn.
    + apply NoDup_cons. split; assumption.
    + apply NoDup_cons. split; [|apply IH; exact Hnd].
      rewrite dict_set_keys. intros [->|Hin]; [congruence|contradiction].
Qed.

Lemma dict_get_elem k v d :
  NoDup d.*1 -> ((k, v) ∈ d <-> dict_get k d = Some v).
Proof.
  induction d as [|[k0 v0] d IH]; cbn; intros Hnd.
  - rewrite elem_of_nil. split; [contradiction|discriminate].
  - apply NoDup_cons in Hnd as [Hnotin Hnd]. rewrite elem_of_cons.
    destruct (decide (k = k0)) as [->|Hne].
    + split.
      * intros [[= ->]|Hin]; [reflexivity|].
        exfalso. apply Hnotin. apply list_elem_of_fmap. exists (k0, v). auto.
      * intros [= ->]. left. reflexivity.
    + rewrite <- (IH Hnd). split.
      * intros [[= -> ->]|Hin]; [congruence|exact Hin].
      * intros Hin. right. exact Hin.
Qed.

Lemma processors_fold k cams d found :
  NoDup d.*1 ->
  dict_get k d = new_processor <$> found ->
  NoDup (foldl (fun d c => dict_set (name c) (new_processor c) d) d cams).*1 /\
  dict_get k (foldl (fun d c => dict_set (name c) (new_processor c) d) d cams) =
  new_processor <$>
    foldl (fun found c => if decide (name c = k) then Some c else found) found cams.
Proof.
  revert d found. induction cams as [|c cams IH]; intros d found Hnd Hget; cbn.
  - split; assumption.
  - apply IH; [apply dict_set_NoDup; exact Hnd|].
    rewrite dict_get_set.
    destruct (decide (k = name c)) as [->|Hne].
    + rewrite decide_True by reflexivity. reflexivity.
    + rewrite decide_False by congruence. exact Hget.
Qed.

Lemma last_named_spec k cams c :
  last_named k cams = Some c -> c ∈ cams /\ name c = k.
Proof.
  unfold last_named.
  assert (H : forall found,
             foldl (fun found c => if decide (name c = k) then Some c else found)
                   found cams = Some c ->
             (c ∈ cams /\ name c = k) \/ found = Some c).
  { induction cams as [|c0 cams IH]; cbn; intros found Hf; [right; exact Hf|].
    destruct (IH _ Hf) as [[Hin Hk]|Hs].
    - left. split; [right; exact Hin|exact Hk].
    - destruct (decide (name c0 = k)) as [Hk|Hk].
      + injection Hs as ->. left. split; [left|exact Hk].
      + right. exact Hs. }
  intros Hf. destruct (H None Hf) as [?|?]; [assumption|discriminate].
Qed.

Lemma last_named_some k cams c :
  c ∈ cams -> name c = k -> is_Some (last_named k cams).
Proof.
  unfold last_named. intros Hin Hk.
  assert (H : forall found,
             (c ∈ cams \/ is_Some found) ->
             is_Some (foldl (fun found c => if decide (name c = k) then Some c else found)
                            found cams)).
  { clear Hin. induction cams as [|c0 cams IH]; cbn; intros found Hf.
    - destruct Hf as [Hf|Hf]; [inversion Hf|exact Hf].
    - apply IH. destruct Hf as [Hf|Hf].
      + apply elem_of_cons in Hf as [->|Hf]; [|left; exact Hf].
        right. rewrite decide_True by exact Hk. eexists. reflexivity.
      + right. destruct (decide (name c0 = k)); [eexists; reflexivity|exact Hf]. }
  apply H. left. exact Hin.
Qed.

Lemma processors_lookup cams k :
  NoDup (processors cams).*1 /\
  dict_get k (processors cams) = new_processor <$> last_named k cams.
Proof. apply processors_fold; [constructor|reflexivity]. Qed.

Lemma processors_entry cams k p :
  (k, p) ∈ processors cams <->
  exists c, last_named k cams = Some c /\ p = new_processor c.
Proof.
  destruct (processors_lookup cams k) as [Hnd Hget].
  rewrite (dict_get_elem k p _ Hnd), Hget.
  destruct (last_named k cams) as [c|]; cbn; split.
  - intros [= <-]. exists c. split; reflexivity.
  - intros (c' & [= <-] & ->). reflexivity.
  - discriminate.
  - intros (c' & Hc & _). discriminate.
Qed.

(** X2.  The dict of line 157 holds one processor per camera name, however
    often the name occurs in the configuration, and it is the processor of the
    last camera with that name; no configured name is left out. *)
Theorem processors_last_wins cams :
  NoDup (processors cams).*1 /\
  (forall k p,
     (k, p) ∈ processors cams <->
     exists c, last_named k cams = Some c /\ p = new_processor c) /\
  (forall c, c ∈ cams -> name c ∈ (processors cams).*1).
Proof.
  split; [apply (processors_lookup cams EmptyString)|].
  split; [apply processors_entry|].
  intros c Hin. destruct (last_named_some (name c) cams c Hin eq_refl) as [c' Hc'].
  apply list_elem_of_fmap. exists (name c, new_processor c').
  split; [reflexivity|]. apply processors_entry. exists c'.
  split; [exact Hc'|reflexivity].
Qed.

(** ** What a thread keeps *)

Section Lift.

Variable R : thread -> thread -> Prop.
Hypothesis R_refl : forall t, R t t.
Hypothesis R_trans : forall a b c, R a b -> R b c -> R a c.
Hypothesis R_step : forall e g t, R t (o_thread (thread_step e g t)).

Lemma lift_run sched s i t :
  threads s !! i = Some t ->
  exists t', threads (run sched s) !! i = Some t' /\ R t t'.
Proof.
  revert s t. induction sched as [|ch sched IH]; intros s t Hi.
  - exists t. split; [exact Hi|apply R_refl].
  - pose proof (step_lookup s ch i t Hi) as Hs.
    destruct (IH _ _ Hs) as (t' & Ht' & HR).
    exists t'. split; [exact Ht'|].
    eapply R_trans; [|exact HR].
    destruct (decide (fst ch = i)); [apply R_step|apply R_refl].
Qed.

End Lift.

Lemma grows_refl t : grows t t.
Proof.
  split; [reflexivity|].
  destruct t as [pc|c pc|c pc|p pc]; try reflexivity.
  repeat split; try lia; auto.
Qed.

Lemma grows_trans a b c : grows a b -> grows b c -> grows a c.
Proof.
  intros [Fab Hab] [Fbc Hbc]. split.
  - intros Hf. pose proof (Fab Hf) as Hb. subst b. exact (Fbc Hf).
  - destruct a as [pa|ca pa|ca pa|qa pa], b as [pb|cb pb|cb pb|qb pb];
      try contradiction;
      destruct c as [pc|cc pc|cc pc|qc pc]; try contradiction; try exact I;
      try congruence.
    destruct Hab as (A1 & A2 & A3 & A4 & A5), Hbc as (B1 & B2 & B3 & B4 & B5).
    repeat split; [congruence|lia|lia|auto|auto].
Qed.

Lemma grows_step e g t : grows t (o_thread (thread_step e g t)).
Proof.
  split.
  - destruct t as [pc|c pc|c pc|p pc]; destruct pc; try discriminate; reflexivity.
  - destruct t as [pc|c pc|c pc|p pc].
    + destruct pc; cbn; try destruct (interrupt e); exact I.
    + destruct pc; cbn [thread_step send_nvr_record_step]; split_reads;
        split_world e; reflexivity.
    + destruct pc; cbn [thread_step monitor_no_motion_stop_step]; split_reads;
        split_world e; reflexivity.
    + destruct p as [c cp rf fc rc].
      destruct pc; cbn [thread_step process_step cam cap ref_frame frame_count
                        reconnects];
        try destruct (running g); try destruct cp; try destruct (isOpened e);
        try destruct (init_cap e); try destruct (cap_read e); try destruct rf;
        try destruct (is_motion _ _); unfold refresh;
        try destruct (refresh_due _ _); cbn;
        repeat split; try lia; auto; intros; eexists; reflexivity.
Qed.

(** X3.  Whatever the schedule, a thread stays the same kind of thread for
    the same camera and a thread that has returned never runs again; the frame
    and reconnect counters of a frame loop never decrease, and its capture and
    its reference frame, once there, are never lost (a reconnect keeps the old
    reference frame). *)
Theorem threads_only_grow sched s i t :
  threads s !! i = Some t ->
  exists t', threads (run sched s) !! i = Some t' /\ grows t t'.
Proof. apply (lift_run grows grows_refl grows_trans grows_step). Qed.

(** X3, witness: the frame loop of [cam1] over the execution [single_start]. *)
Lemma threads_only_grow_witness :
  exists t',
    threads (run single_start (boot 30 [cam1])) !! 1%nat = Some t' /\
    grows (Process (new_processor cam1) P106) t'.
Proof.
  refine (threads_only_grow single_start (boot 30 [cam1]) 1
            (Process (new_processor cam1) P106) _).
  reflexivity.
Defined.

(** ** Requests are for configured cameras *)

Lemma thread_step_cam e g t :
  let o := thread_step e g t in
  thread_cam (o_thread o) = thread_cam t /\
  Forall (fun t' => thread_cam t' = thread_cam t) (o_spawned o) /\
  Forall (fun x => exists c, thread_cam t = Some c /\ request_of c x) (o_calls o).
Proof.
  cbv zeta. unfold request_of.
  destruct t as [pc|c pc|c pc|p pc].
  - destruct pc; cbn; try destruct (interrupt e); repeat split; constructor.
  - destruct pc; cbn [thread_step send_nvr_record_step]; split_reads; split_world e;
      cbn; repeat split; repeat constructor; eexists; repeat split.
  - destruct pc; cbn [thread_step monitor_no_motion_stop_step]; split_reads;
      split_world e; cbn; repeat split; repeat constructor; eexists; repeat split.
  - destruct p as [c cp rf fc rc].
    destruct pc; cbn [thread_step process_step cam cap ref_frame frame_count
                      reconnects];
      try destruct (running g); try destruct cp; try destruct (isOpened e);
      try destruct (init_cap e); try destruct (cap_read e); try destruct rf;
      try destruct (is_motion _ _); unfold refresh;
      try destruct (refresh_due _ _); cbn;
      repeat split; repeat constructor.
Qed.

Lemma configured_step cams s ch : configured cams s -> configured cams (step s ch).
Proof.
  intros [Ht Hc]. unfold step.
  destruct (threads s !! fst ch) as [t|] eqn:Hi; [|split; assumption].
  destruct (thread_step_cam (snd ch) (globals s) t) as (Hcam & Hsp & Hcalls).
  assert (Hin : forall c, thread_cam t = Some c -> c ∈ cams).
  { rewrite Forall_lookup in Ht. exact (Ht _ _ Hi). }
  split; cbn [threads calls].
  - apply Forall_app. split.
    + apply Forall_insert; [exact Ht|]. rewrite Hcam. exact Hin.
    + eapply Forall_impl; [exact Hsp|]. cbn. intros t' Ht' c. rewrite Ht'. apply Hin.
  - apply Forall_app. split; [exact Hc|].
    eapply Forall_impl; [exact Hcalls|]. cbn. intros x (c & Hc' & Hx).
    exists c. split; [apply Hin; exact Hc'|exact Hx].
Qed.

Lemma configured_run cams sched s : configured cams s -> configured cams (run sched s).
Proof.
  revert s. induction sched as [|ch sched IH]; intros s Hs; [exact Hs|].
  apply IH. apply configured_step. exact Hs.
Qed.

Lemma configured_boot cooldown cams : configured cams (boot cooldown cams).
Proof.
  split; cbn [boot threads calls]; [|constructor].
  constructor; [discriminate|].
  apply Forall_forall. intros t Ht c Hc.
  apply list_elem_of_In, in_map_iff in Ht as ([k p] & <- & Hkp).
  apply list_elem_of_In in Hkp.
  apply processors_entry in Hkp as (c' & Hlast & ->).
  cbn in Hc. injection Hc as <-.
  apply (last_named_spec _ _ _ Hlast).
Qed.

(** X4.  Every request the program ever sends is for a camera of the
    configuration, under that camera's name and for the track
    [nvr_channel * 100 + 1]. *)
Theorem requests_are_configured cooldown cams sched x :
  x ∈ calls (run sched (boot cooldown cams)) ->
  exists c, c ∈ cams /\ cam_of x = name c /\ track x = (nvr_channel c * 100 + 1)%Z.
Proof.
  intros Hx.
  destruct (configured_run cams sched _ (configured_boot cooldown cams)) as [_ Hc].
  rewrite Forall_forall in Hc. exact (Hc x Hx).
Qed.

(** X4, witness: the start request of the execution [single_start]. *)
Lemma requests_are_configured_witness :
  exists c, c ∈ [cam1] /\
    cam_of (mkCall StartTrack "cam1" 301 (Status 200) false) = name c /\
    track (mkCall StartTrack "cam1" 301 (Status 200) false)
    = (nvr_channel c * 100 + 1)%Z.
Proof.
  refine (requests_are_configured 30 [cam1] single_start
            (mkCall StartTrack "cam1" 301 (Status 200) false) _).
  assert (E : calls (run single_start (boot 30 [cam1]))
              = [mkCall StartTrack "cam1" 301 (Status 200) false]) by closed.
  rewrite E. left.
Defined.

(** ** Cameras do not touch each other; requests and watchdogs add up *)

Section OtherCameras.

Variable k : string.

Lemma isolated_step e g t :
  of_camera k t = false ->
  let o := thread_step e g t in
  is_recording (o_globals o) k = is_recording g k /\
  last_motion (o_globals o) k = last_motion g k /\
  count (is_for k) (o_calls o) = O /\
  of_camera k (o_thread o) = false /\
  count (of_camera k) (o_spawned o) = O.
Proof.
  unfold of_camera. intros Hk. cbv zeta.
  destruct t as [pc|c pc|c pc|p pc]; destruct pc;
    cbn [thread_step main_step send_nvr_record_step monitor_no_motion_stop_step
         process_step];
    split_reads; cbn in *; use_views; split_world e; cbn;
    unfold is_for, refresh; try destruct (refresh_due _ _); cbn;
    try rewrite is_recording_set_recording;
    try rewrite last_motion_set_last_motion;
    repeat case_bool_decide; repeat case_decide; subst; cbn;
    try congruence; repeat split; try congruence; auto.
Qed.

Lemma thread_step_tally e g t :
  let o := thread_step e g t in
  ((if watchdog_of k (o_thread o) then 1 else 0)
   + (if answered_call k (o_thread o) then 1 else 0)
   + count (watchdog_of k) (o_spawned o) + count (answered_call k) (o_spawned o)
   = (if watchdog_of k t then 1 else 0) + (if answered_call k t then 1 else 0)
     + count (answered_start k) (o_calls o))%nat /\
  (count (stop_for k) (o_calls o) + (if past_stop k t then 1 else 0)
   <= (if past_stop k (o_thread o) then 1 else 0)
      + count (past_stop k) (o_spawned o))%nat /\
  (is_recording (o_globals o) k = true ->
   is_recording g k = true \/ answered_call k t = true).
Proof.
  cbv zeta. unfold stop_for, answered_start, is_start.
  thread_cases e g t; repeat split; intros; try lia; try congruence; auto.
Qed.

Lemma tally_step s ch : tally k s -> tally k (step s ch).
Proof.
  intros (Heq & Hle & Hrec). unfold step.
  destruct (threads s !! fst ch) as [t|] eqn:Hi; [|repeat split; assumption].
  destruct (thread_step_tally (snd ch) (globals s) t) as (Hd1 & Hd2 & Hr).
  set (o := thread_step (snd ch) (globals s) t) in *.
  pose proof (count_insert (watchdog_of k) (threads s) (fst ch) t (o_thread o) Hi) as Iw.
  pose proof (count_insert (answered_call k) (threads s) (fst ch) t (o_thread o) Hi) as Ia.
  pose proof (count_insert (past_stop k) (threads s) (fst ch) t (o_thread o) Hi) as Ip.
  unfold tally. cbn [threads calls globals]. rewrite !count_app.
  split; [lia|split; [lia|]].
  intros Ht. destruct (Hr Ht) as [Hg|Ho].
  - specialize (Hrec Hg). lia.
  - pose proof (count_lookup (answered_call k) _ _ _ Hi Ho). lia.
Qed.

Lemma tally_run sched s : tally k s -> tally k (run sched s).
Proof.
  revert s. induction sched as [|ch sched IH]; intros s Hs; [exact Hs|].
  apply IH. apply tally_step. exact Hs.
Qed.

Lemma tally_boot cooldown cams : tally k (boot cooldown cams).
Proof.
  unfold tally, boot. cbn [threads calls globals count].
  generalize (processors cams). intros l.
  assert (H : forall f : thread -> bool,
             (forall p pc, f (Process p pc) = false) ->
             count f (map (fun kv => Process (snd kv) P106) l) = O).
  { intros f Hf. induction l as [|kv l IH]; [reflexivity|].
    cbn [map count]. rewrite Hf. exact IH. }
  rewrite !H by reflexivity. cbn. repeat split; try lia. discriminate.
Qed.

End OtherCameras.

(** X5.  A step of a thread that does not work for a camera named [k] (the
    main thread, or a thread of another camera) leaves the recording flag and
    the last motion time of [k] as they are, sends no request for [k] and
    starts no thread for [k]. *)
Theorem cameras_are_isolated s i t e k :
  threads s !! i = Some t ->
  of_camera k t = false ->
  is_recording (globals (step s (i, e))) k = is_recording (globals s) k /\
  last_motion (globals (step s (i, e))) k = last_motion (globals s) k /\
  count (of_camera k) (threads (step s (i, e))) = count (of_camera k) (threads s) /\
  exists more,
    calls (step s (i, e)) = calls s ++ more /\ count (is_for k) more = O.
Proof.
  intros Hi Hk. unfold step. cbn [fst snd]. rewrite Hi. cbn [globals calls threads].
  destruct (isolated_step k e (globals s) t Hk) as (H1 & H2 & H3 & H4 & H5).
  pose proof (count_insert (of_camera k) (threads s) i t
                (o_thread (thread_step e (globals s) t)) Hi) as Hc.
  rewrite Hk, H4 in Hc. rewrite count_app, H5.
  repeat split; try assumption; [lia|].
  eexists. split; [reflexivity|exact H3].
Qed.

(** X5, witness: the failing stop request of [cam1]'s watchdog, seen from a
    camera named cam2. *)
Lemma cameras_are_isolated_witness :
  is_recording (globals (step before_failed_stop (3%nat, put_raises 1011))) "cam2"
  = is_recording (globals before_failed_stop) "cam2".
Proof.
  refine (proj1 (cameras_are_isolated before_failed_stop 3 (Monitor cam1 M42)
                   (put_raises 1011) "cam2" _ _)); closed.
Defined.

(** X6.  In every state the program reaches, under any schedule: the watchdog
    threads of a camera, together with its [send_nvr_record] calls between
    lines 64 and 71, are exactly as many as the answered start requests for
    it, so a start request that raises never leads to a watchdog and an
    answered one leads to exactly one; the stop requests sent for the camera
    are at most as many as its watchdogs; and its flag is true only if a start
    request for it has been answered. *)
Theorem one_watchdog_per_answered_start cooldown cams sched k :
  let s := run sched (boot cooldown cams) in
  (count (watchdog_of k) (threads s) + count (answered_call k) (threads s)
   = count (answered_start k) (calls s))%nat /\
  (count (stop_for k) (calls s) <= count (watchdog_of k) (threads s))%nat /\
  (is_recording (globals s) k = true -> (1 <= count (answered_start k) (calls s))%nat).
Proof.
  cbv zeta.
  destruct (tally_run k sched _ (tally_boot k cooldown cams)) as (Heq & Hle & Hrec).
  split; [exact Heq|split; [|exact Hrec]].
  assert (H : forall l, (count (past_stop k) l <= count (watchdog_of k) l)%nat).
  { induction l as [|t l IH]; [reflexivity|]. cbn [count].
    destruct t as [pc|c pc|c pc|p pc]; try destruct pc; cbn;
      try case_bool_decide; lia. }
  specialize (H (threads (run sched (boot cooldown cams)))). lia.
Qed.

(** ** Shutdown *)

Lemma running_step e g t :
  running g = false -> running (o_globals (thread_step e g t)) = false.
Proof.
  intros Hr.
  destruct t as [pc|c pc|c pc|p pc]; destruct pc;
    cbn [thread_step main_step send_nvr_record_step monitor_no_motion_stop_step
         process_step];
    split_reads; cbn [o_globals];
    repeat match goal with
    | V : same_view _ _ |- _ => destruct V as (_ & ? & _ & _)
    | |- context [if ?b then _ else _] => destruct b
    | |- context [match ?x with _ => _ end] => destruct x
    end; cbn; congruence.
Qed.

Lemma running_run sched s :
  running (globals s) = false -> running (globals (run sched s)) = false.
Proof.
  revert s. induction sched as [|ch sched IH]; intros s Hs; [exact Hs|].
  apply IH. unfold step. destruct (threads s !! fst ch); [|exact Hs].
  cbn [globals]. apply running_step. exact Hs.
Qed.

(** X7.  Once a [KeyboardInterrupt] has reached the main thread, [running]
    is false in every later state.  A watchdog that then tests its loop
    condition leaves without sending a stop request and without touching the
    flag, also when the timeout is exceeded: a recording in progress is left
    running on the recorder.  A frame loop that tests its loop condition
    leaves. *)
Theorem interrupt_shuts_down s i e :
  threads s !! i = Some (Main J168) ->
  interrupt e = true ->
  forall sched,
    let s' := run sched (step s (i, e)) in
    running (globals s') = false /\
    (forall j c e',
       threads s' !! j = Some (Monitor c M79) ->
       threads (step s' (j, e')) !! j = Some (Monitor c MDone) /\
       calls (step s' (j, e')) = calls s' /\
       is_recording (globals (step s' (j, e'))) (name c) =
       is_recording (globals s') (name c)) /\
    (forall j p e',
       threads s' !! j = Some (Process p P106) ->
       threads (step s' (j, e')) !! j = Some (Process p PDone)).
Proof.
  intros Hi Hint sched. cbv zeta.
  assert (Hoff : running (globals (run sched (step s (i, e)))) = false).
  { apply running_run. unfold step. cbn [fst snd]. rewrite Hi.
    cbn [thread_step main_step]. rewrite Hint. reflexivity. }
  split; [exact Hoff|]. set (s' := run sched (step s (i, e))) in *.
  split.
  - intros j c e' Hj. unfold step. cbn [fst snd]. rewrite Hj.
    cbn [thread_step monitor_no_motion_stop_step]. rewrite Hoff.
    cbn [o_globals o_thread o_calls o_spawned threads calls globals].
    rewrite !app_nil_r. repeat split.
    apply list_lookup_insert_eq. eapply lookup_lt_Some. exact Hj.
  - intros j p e' Hj. unfold step. cbn [fst snd]. rewrite Hj.
    cbn [thread_step process_step]. rewrite Hoff.
    cbn [o_thread o_spawned threads]. rewrite app_nil_r.
    apply list_lookup_insert_eq. eapply lookup_lt_Some. exact Hj.
Qed.

(** X7, witness: the interrupt arrives while [cam1] is recording. *)
Lemma interrupt_shuts_down_witness :
  running (globals (run (thread_runs 3 1 (world 1012))
                        (step before_failed_stop (0%nat, ctrl_c 1011)))) = false.
Proof.
  refine (proj1 (interrupt_shuts_down before_failed_stop 0 (ctrl_c 1011) _ _
                   (thread_runs 3 1 (world 1012)))); closed.
Defined.

(** ** The calls, case by case *)

(** X8.  On a camera that is not recording and whose cooldown has elapsed, a
    start request that is answered, with whatever status code, makes
    [send_nvr_record] set the flag, store the clock it read at line 51 as the
    last motion time and start one watchdog; the state of every other camera
    is untouched. *)
Theorem answered_start_records e g c code :
  is_recording g (name c) = false ->
  COOLDOWN g <= time_time e - last_motion g (name c) ->
  put e = Status code ->
  let o := send_nvr_record e g c in
  o_calls o = [mkCall StartTrack (name c) (nvr_channel c * 100 + 1) (Status code) false] /\
  o_spawned o = [Monitor c M79] /\
  is_recording (o_globals o) (name c) = true /\
  last_motion (o_globals o) (name c) = time_time e /\
  forall k, k <> name c ->
    is_recording (o_globals o) k = is_recording g k /\
    last_motion (o_globals o) k = last_motion g k.
Proof.
  intros Hrec Hcd Hput. cbv zeta.
  pose proof (send_nvr_record_cases e g c) as H. cbv zeta in H.
  apply (proj2 (Qltb_ge _ _)) in Hcd.
  rewrite Hrec, Hcd, Hput in H. cbn [orb] in H.
  destruct H as (_ & _ & _ & Hother & Hc & Hs & Hr & Hl).
  repeat split; try assumption; apply Hother; assumption.
Qed.

(** X8, witness: the recorder answers 401 to the first start request after
    boot. *)
Lemma answered_start_records_witness :
  is_recording
    (o_globals (send_nvr_record (mkEnv 1000 (Status 401) true true None 0 false)
                  (globals (boot 30 [cam1])) cam1)) "cam1" = true.
Proof.
  refine (proj1 (proj2 (proj2 (answered_start_records
            (mkEnv 1000 (Status 401) true true None 0 false)
            (globals (boot 30 [cam1])) cam1 401 _ _ _)))); closed.
Defined.

(** X9.  A pass of the watchdog's loop while the program is running, the
    camera is recording and the clock is at most the timeout past the last
    motion (the comparison of line 81 is strict) sends nothing, changes nothing
    a read can see and is back at the loop test. *)
Theorem watchdog_keeps_polling e g c :
  running g = true ->
  is_recording g (name c) = true ->
  time_time e - last_motion g (name c) <= no_motion_timeout c ->
  let o := run_alone 5 e g (Monitor c M79) in
  o_thread o = Monitor c M79 /\ o_calls o = [] /\ o_spawned o = [] /\
  same_view g (o_globals o).
Proof.
  intros Hrun Hrec Hle. cbv zeta.
  one_step. rewrite Hrun. one_step.
  pose proof (read_recording_fst g (name c)) as Hr.
  pose proof (read_recording_view g (name c)) as V1.
  destruct (read_recording g (name c)) as [r g1]. cbn [fst snd] in Hr, V1. subst r.
  rewrite Hrec. cbn [o_globals o_thread o_calls o_spawned].
  do 2 one_step.
  pose proof (read_last_motion_fst g1 (name c)) as Hl.
  pose proof (read_last_motion_view g1 (name c)) as V2.
  destruct (read_last_motion g1 (name c)) as [l g2]. cbn [fst snd] in Hl, V2. subst l.
  assert (Hq : Qltb (no_motion_timeout c) (time_time e - last_motion g1 (name c)) = false).
  { apply Qltb_ge. destruct V1 as (_ & _ & _ & L). rewrite L. exact Hle. }
  rewrite Hq. cbn [o_globals o_thread o_calls o_spawned].
  one_step. cbn [run_alone o_globals o_thread o_calls o_spawned app].
  repeat split; try reflexivity;
    apply (same_view_trans _ _ _ V1 V2).
Qed.

(** X9, witness: exactly ten seconds after the last motion, with a timeout
    of ten seconds. *)
Lemma watchdog_keeps_polling_witness :
  o_calls (run_alone 5 (world 1010) recording_since_1000 (Monitor cam1 M79)) = [].
Proof.
  refine (proj1 (proj2 (watchdog_keeps_polling (world 1010) recording_since_1000
                          cam1 _ _ _))); closed.
Defined.

(** X10.  A pass of the frame loop never sends a request itself.  It starts a
    [send_nvr_record] thread exactly when a frame was read, a reference frame
    exists and the motion area is strictly above the threshold, whether or not
    the camera is already recording; in every other case it starts nothing
    and leaves the globals alone. *)
Theorem motion_event_trigger e g p :
  let o := process_frame e g p in
  o_calls o = [] /\
  (is_Some (cap_read e) /\ is_Some (ref_frame p) /\
   threshold (cam p) < contour_area e ->
   o_spawned o = [Send (cam p) S51]) /\
  (~ (is_Some (cap_read e) /\ is_Some (ref_frame p) /\
      threshold (cam p) < contour_area e) ->
   o_spawned o = [] /\ o_globals o = g).
Proof.
  cbv zeta. unfold process_frame.
  destruct (cap_read e) as [gray|]; [destruct (ref_frame p) as [r|]|].
  - destruct (is_motion (cam p) (contour_area e)) eqn:Hm; cbn.
    + apply (proj1 (Qltb_lt _ _)) in Hm.
      split; [reflexivity|split; [reflexivity|]].
      intros Hn. exfalso. apply Hn. repeat split; eauto.
    + split; [reflexivity|split; [|split; reflexivity]].
      intros (_ & _ & Hlt). apply (proj2 (Qltb_lt _ _)) in Hlt.
      unfold is_motion in Hm. congruence.
  - cbn. split; [reflexivity|split; [|split; reflexivity]].
    intros (_ & [r Hr] & _). discriminate.
  - cbn. split; [reflexivity|split; [|split; reflexivity]].
    intros ([r Hr] & _). discriminate.
Qed.







Section Clearing.
Variable k : string.

Lemma thread_step_clear e g t :
  let o := thread_step e g t in
  count (clearing_flag k) (o_spawned o) = O /\
  count (setting_flag k) (o_spawned o) = O /\
  (clearing_flag k (o_thread o) = true ->
   clearing_flag k t = true \/ (1 <= count (answered_stop k) (o_calls o))%nat) /\
  (is_recording (o_globals o) k = false ->
   is_recording g k = false \/ clearing_flag k t = true) /\
  (setting_flag k t = true -> is_recording (o_globals o) k = true) /\
  (setting_flag k t = false ->
   setting_flag k (o_thread o) = true \/ count (answered_start k) (o_calls o) = O).
Proof.
  cbv zeta. unfold answered_stop, stop_for, answered_start, is_start.
  thread_cases e g t; repeat split; intros; try lia; try congruence; auto.
Qed.

Lemma cleared_step s ch : cleared_by_stop k s -> cleared_by_stop k (step s ch).
Proof.
  intros [Hclr Hinv]. unfold step.
  destruct (threads s !! fst ch) as [t|] eqn:Hi; [|split; assumption].
  destruct (thread_step_clear (snd ch) (globals s) t)
    as (Hsc & Hss & Hc & Hf & Hset & Hnew).
  set (o := thread_step (snd ch) (globals s) t) in *.
  pose proof (count_insert (clearing_flag k) (threads s) (fst ch) t (o_thread o) Hi) as Ic.
  pose proof (count_insert (setting_flag k) (threads s) (fst ch) t (o_thread o) Hi) as Is.
  unfold cleared_by_stop. cbn [threads calls globals]. rewrite !count_app, Hsc, Hss.
  split.
  - intros Hone.
    destruct (clearing_flag k (o_thread o)) eqn:Ec.
    + destruct (Hc eq_refl) as [Et|Hs]; [|lia].
      pose proof (count_lookup (clearing_flag k) _ _ _ Hi Et) as H1.
      specialize (Hclr H1). lia.
    + destruct (clearing_flag k t); [|assert (H1 : (1 <= count (clearing_flag k) (threads s))%nat) by lia;
                                      specialize (Hclr H1); lia].
      assert (H1 : (1 <= count (clearing_flag k) (threads s))%nat) by lia.
      specialize (Hclr H1). lia.
  - intros Hfalse.
    destruct (Hf Hfalse) as [Hg|Et].
    + destruct (setting_flag k t) eqn:Es; [specialize (Hset eq_refl); congruence|].
      destruct (Hinv Hg) as [H0|[H1|H2]].
      * destruct (Hnew eq_refl) as [Hn|Hn].
        -- right. right. rewrite Hn in Is. lia.
        -- left. lia.
      * right. left. lia.
      * right. right. destruct (setting_flag k (o_thread o)); lia.
    + pose proof (count_lookup (clearing_flag k) _ _ _ Hi Et) as H1.
      specialize (Hclr H1). right. left. lia.
Qed.

Lemma cleared_run sched s : cleared_by_stop k s -> cleared_by_stop k (run sched s).
Proof.
  revert s. induction sched as [|ch sched IH]; intros s Hs; [exact Hs|].
  apply IH. apply cleared_step. exact Hs.
Qed.

Lemma cleared_boot cooldown cams : cleared_by_stop k (boot cooldown cams).
Proof.
  unfold cleared_by_stop, boot. cbn [threads calls globals count].
  generalize (processors cams). intros l.
  assert (H : count (clearing_flag k) (map (fun kv => Process (snd kv) P106) l) = O).
  { induction l as [|kv l IH]; [reflexivity|exact IH]. }
  rewrite H. cbn. split; [lia|]. intros _. left. reflexivity.
Qed.

End Clearing.

(** X14.  Lines 44 and 65 are the only writes to [recording_state]: in every
    interleaving from start-up, a camera whose flag is down either never had
    a start request answered, or had a stop request answered, or has a
    [send_nvr_record] thread standing between its answered request and
    line 65. *)
Theorem flag_cleared_only_by_stop cooldown cams sched k :
  is_recording (globals (run sched (boot cooldown cams))) k = false ->
  count (answered_start k) (calls (run sched (boot cooldown cams))) = O \/
  (1 <= count (answered_stop k) (calls (run sched (boot cooldown cams))))%nat \/
  (1 <= count (setting_flag k) (threads (run sched (boot cooldown cams))))%nat.
Proof.
  apply (cleared_run k sched _ (cleared_boot k cooldown cams)).
Qed.

Lemma flag_cleared_only_by_stop_witness :
  is_recording (globals (run full_cycle (boot 30 [cam1]))) "cam1" = false /\
  (count (answered_start "cam1") (calls (run full_cycle (boot 30 [cam1]))) = O \/
   (1 <= count (answered_stop "cam1")
           (calls (run full_cycle (boot 30 [cam1]))))%nat \/
   (1 <= count (setting_flag "cam1")
           (threads (run full_cycle (boot 30 [cam1]))))%nat).
Proof.
  split; [closed|].
  apply (flag_cleared_only_by_stop 30 [cam1] full_cycle "cam1"). closed.
Defined.

(** X15.  One uninterrupted pass of the watchdog loop (lines 79 to 85) sends a
    request exactly when [running] is set, the camera's flag is up and the
    time since the last motion exceeds the timeout; the request is then the
    stop request of the camera's track, and no other request is sent. *)
Theorem watchdog_pass_requests e g c :
  o_calls (run_alone 6 e g (Monitor c M79)) =
  if running g && is_recording g (name c)
     && Qltb (no_motion_timeout c) (time_time e - last_motion g (name c))
  then [mkCall StopTrack (name c) (track_id c) (put e) true]
  else [].
Proof.
  one_step. destruct (running g); cbn [andb];
    [|rewrite run_alone_MDone; reflexivity].
  one_step.
  pose proof (read_recording_fst g (name c)) as Hr.
  pose proof (read_recording_view g (name c)) as (_ & _ & I1 & L1).
  destruct (read_recording g (name c)) as [r g1]. cbn [fst snd] in Hr, I1, L1. subst r.
  destruct (is_recording g (name c)) eqn:Hrec; cbn [andb o_globals o_thread o_calls o_spawned];
    [|rewrite run_alone_MDone; reflexivity].
  do 2 one_step.
  pose proof (read_last_motion_fst g1 (name c)) as Hl.
  pose proof (read_last_motion_view g1 (name c)) as (_ & _ & I2 & L2).
  destruct (read_last_motion g1 (name c)) as [l g2]. cbn [fst snd] in Hl, I2, L2. subst l.
  rewrite L1.
  destruct (Qltb _ _); cbn [o_globals o_thread o_calls o_spawned].
  - rewrite stop_record_run_alone. unfold stop_record. rewrite I2, I1, Hrec.
    destruct (put e); reflexivity.
  - do 2 one_step. reflexivity.
Qed.
